(** * Research assistant (streamlit_app.py): agent loop, search cache, formatter

    A shallow embedding of the [ResearchAssistant] class of
    [src/streamlit_app.py] and the properties of its tool-use loop.

    Conventions of the embedding.
    - A Python [str] is a Rocq [string], one [ascii] per character.
    - A Python [int] is a [Z]; [str(n)] on an int is stdpp's [pretty].
    - The two outbound services are oracles: [brave] answers the HTTP GET of
      [web_search], [claude] answers [client.messages.create].  Both may
      answer differently at every call, so they take the number of calls
      already issued in the session.
    - The object's two attributes [conversation_history] and
      [search_results_cache] are fields of the record [ResearchAssistant];
      two further fields ([http_log], [model_log]) are ghost traces of the
      outbound calls: the code never reads them, they exist to count calls.
    - The [st.status] / [st.error] notifications are advisory and are left
      out: they change neither the object nor the control flow. *)

From stdpp Require Import gmap strings list pretty.

(** ** Data *)

(** A decoded JSON document, as [response.json()] returns it.  An object is
    the association list of a Python dict (keys distinct, lookup takes the
    first binding).  [JNum] carries an int; a float behaves like an int in
    every operation [web_search] applies to the payload. *)
#[warnings="-register-all"]
Inductive json : Type :=
| JNull
| JBool (b : bool)
| JNum (n : Z)
| JStr (s : string)
| JArr (xs : list json)
| JObj (kvs : list (string * json)).

(** One processed hit: the dict with keys "title", "url", "description"
    built by [web_search]; the values are whatever the payload carried. *)
Record SearchResult : Type := mkResult {
  title : json;
  url : json;
  description : json
}.

(** What the provider's HTTP GET can do: [requests.get] raises, or a
    response comes back with a status code and a body that [response.json()]
    decodes ([Some]) or rejects by raising ([None]). *)
Inductive http_outcome : Type :=
| ConnectionFailed
| HttpResponse (status_code : Z) (body : option json).

(** The [input] of a tool_use block, read through the tool's declared
    [input_schema]: "query" a string, "num_results" an integer, each
    possibly absent. *)
Record tool_input : Type := mkInput {
  input_query : option string;
  input_num_results : option Z
}.

(** Content blocks, of the model's responses and of the history. *)
Inductive block : Type :=
| TextBlock (text : string)
| ToolUse (id name : string) (input : tool_input)
| ToolResult (tool_use_id content : string)
| OtherBlock.

Inductive role : Type := user | assistant.

Inductive content : Type :=
| Plain (s : string)
| Blocks (bs : list block).

Record turn : Type := mkTurn {
  turn_role : role;
  turn_content : content
}.

(** A response of [client.messages.create]. *)
Record response : Type := mkResponse {
  stop_reason : string;
  resp_content : list block
}.

(** The exception classes [process_research_query] tells apart, with
    [str(e)]. *)
Inductive exn_class : Type := APIError | RequestException | OtherException.

Record exn : Type := mkExn {
  exn_kind : exn_class;
  exn_str : string
}.

Inductive model_outcome : Type :=
| Replied (r : response)
| Failed (e : exn).

(** The object.  [http_log] lists the (query, count) of every GET issued,
    [model_log] the messages and outcome of every model call, oldest
    first. *)
Record ResearchAssistant : Type := mkAssistant {
  conversation_history : list turn;
  search_results_cache : gmap string (list SearchResult);
  http_log : list (string * Z);
  model_log : list (list turn * model_outcome)
}.

(** [ResearchAssistant.__init__] *)
Definition init : ResearchAssistant :=
  mkAssistant [] ∅ [] [].

Definition nl : string := String (Ascii.ascii_of_nat 10) EmptyString.

#[global] Instance json_inhabited : Inhabited json := populate JNull.
#[global] Instance role_eq_dec : EqDecision role.
Proof. solve_decision. Defined.

(** ** Python primitives used by [web_search] *)

(** [d.get(k)] on the association list of a dict. *)
Fixpoint assoc (k : string) (kvs : list (string * json)) : option json :=
  match kvs with
  | [] => None
  | (k', v) :: rest => if String.eqb k' k then Some v else assoc k rest
  end.

Definition is_str (k : string) (j : json) : bool :=
  match j with
  | JStr s => String.eqb s k
  | _ => false
  end.

Definition is_substring (k s : string) : bool :=
  match String.index 0 k s with
  | Some _ => true
  | None => false
  end.

(** [k in j]: key membership on a dict, element membership on a list,
    substring test on a str; [None] is the TypeError of the other types. *)
Definition py_contains (k : string) (j : json) : option bool :=
  match j with
  | JObj kvs => Some (bool_decide (is_Some (assoc k kvs)))
  | JArr xs => Some (existsb (is_str k) xs)
  | JStr s => Some (is_substring k s)
  | _ => None
  end.

(** [j[k]] with a str key: defined on a dict that has the key; [None] is
    the KeyError or TypeError otherwise. *)
Definition py_getitem (k : string) (j : json) : option json :=
  match j with
  | JObj kvs => assoc k kvs
  | _ => None
  end.

(** [l[:n]] *)
Definition py_slice_to {A : Type} (n : Z) (l : list A) : list A :=
  if (0 <=? n)%Z then take (Z.to_nat n) l
  else take (length l - Z.to_nat (- n)) l.

(** The items visited by [for item in j[:n]]: the elements of a list, the
    characters of a str; [None] is the error of slicing anything else. *)
Definition py_iter_slice (n : Z) (j : json) : option (list json) :=
  match j with
  | JArr xs => Some (py_slice_to n xs)
  | JStr s =>
      Some ((λ c, JStr (String c EmptyString))
              <$> py_slice_to n (String.list_ascii_of_string s))
  | _ => None
  end.

(** [response.raise_for_status()] raises on 4xx and 5xx. *)
Definition raise_for_status (status_code : Z) : bool :=
  ((400 <=? status_code) && (status_code <? 600))%Z.

(** The dict built from one item; [item.get] exists on a dict only
    ([None] is the AttributeError). *)
Definition item_record (item : json) : option SearchResult :=
  match item with
  | JObj kvs =>
      Some {| title := default (JStr "") (assoc "title" kvs);
              url := default (JStr "") (assoc "url" kvs);
              description := default (JStr "") (assoc "description" kvs) |}
  | _ => None
  end.

(** The [for item in ...: processed_results.append(...)] loop. *)
Fixpoint append_items (items : list json) (processed_results : list SearchResult)
  : option (list SearchResult) :=
  match items with
  | [] => Some processed_results
  | item :: rest =>
      match item_record item with
      | Some r => append_items rest (processed_results ++ [r])
      | None => None
      end
  end.

(** The body of the [try] of [web_search], from the GET to
    [processed_results]; [None] when anything in it raises. *)
Definition fetch_results (resp : http_outcome) (num_results : Z)
  : option (list SearchResult) :=
  match resp with
  | ConnectionFailed => None
  | HttpResponse status_code body =>
      if raise_for_status status_code then None
      else
        results ← body;
        has_web ← py_contains "web" results;
        if has_web : bool then
          web ← py_getitem "web" results;
          has_results ← py_contains "results" web;
          if has_results : bool then
            hits ← py_getitem "results" web;
            items ← py_iter_slice num_results hits;
            append_items items []
          else Some []
        else Some []
  end.

(** Field updates of the object. *)
Definition set_history (h : list turn) (st : ResearchAssistant) : ResearchAssistant :=
  mkAssistant h (search_results_cache st) (http_log st) (model_log st).

Definition set_cache (c : gmap string (list SearchResult)) (st : ResearchAssistant)
  : ResearchAssistant :=
  mkAssistant (conversation_history st) c (http_log st) (model_log st).

Definition log_http (q : string) (n : Z) (st : ResearchAssistant) : ResearchAssistant :=
  mkAssistant (conversation_history st) (search_results_cache st)
    (http_log st ++ [(q, n)]) (model_log st).

Definition log_model (msgs : list turn) (o : model_outcome) (st : ResearchAssistant)
  : ResearchAssistant :=
  mkAssistant (conversation_history st) (search_results_cache st)
    (http_log st) (model_log st ++ [(msgs, o)]).

Definition history_append (t : turn) (st : ResearchAssistant) : ResearchAssistant :=
  set_history (conversation_history st ++ [t]) st.

(** [f"{query}_{num_results}"] *)
Definition cache_key (query : string) (num_results : Z) : string :=
  query +:+ "_" +:+ pretty num_results.

(** The separator of the cache key, and the strings free of it. *)
Definition underscore : Ascii.ascii := Ascii.ascii_of_nat 95.

Fixpoint no_underscore (s : string) : bool :=
  match s with
  | EmptyString => true
  | String c rest => negb (Ascii.eqb c underscore) && no_underscore rest
  end.

Definition max_iterations : nat := 5.

(** ** The tool registry and the page

    The rest of the file: [create_tool_specs] and the Streamlit script that
    drives one assistant per browser session. *)

(** One parameter of a tool's [input_schema]. *)
Record param_spec : Type := mkParam {
  param_type : string;
  param_description : string
}.

(** One entry of the list [create_tool_specs] returns. *)
Record tool_spec : Type := mkToolSpec {
  spec_name : string;
  spec_description : string;
  schema_type : string;
  schema_properties : list (string * param_spec);
  schema_required : list string
}.

(** [create_tool_specs(self)] *)
Definition create_tool_specs : list tool_spec :=
  [mkToolSpec "web_search"
     "Search the web for information on a specific topic or query."
     "object"
     [("query", mkParam "string" "The search query to look up");
      ("num_results",
       mkParam "integer" "Number of search results to return (default: 5)")]
     ["query"]].

(** An entry of [st.session_state.messages]. *)
Record chat_message : Type := mkMessage {
  msg_role : role;
  msg_content : string
}.

(** [st.session_state]: the keys "messages" and "assistant", each present
    or not. *)
Record session_state : Type := mkSession {
  ss_messages : option (list chat_message);
  ss_assistant : option ResearchAssistant
}.

(** What the widgets return in one run of the script: the two text inputs,
    the reset button, the chat input ([None] when nothing was submitted). *)
Record widgets : Type := mkWidgets {
  anthropic_api_key : string;
  brave_api_key : string;
  reset_button : bool;
  chat_input : option string
}.

(** ** Sample providers

    Concrete providers and responses, used by the examples at the end of
    the file. *)

(** [str()] on the field values the examples render: a string is itself,
    an int its decimal, [True], [False], [None]; no example renders a list
    or an object. *)
Definition sample_str (j : json) : string :=
  match j with
  | JStr s => s
  | JNum n => pretty n
  | JBool true => "True"
  | JBool false => "False"
  | JNull => "None"
  | JArr _ | JObj _ => EmptyString
  end.

Definition sample_hit (t u d : string) : json :=
  JObj [("title", JStr t); ("url", JStr u); ("description", JStr d)].

Definition sample_payload : json :=
  JObj [("web", JObj [("results",
          JArr [sample_hit "Rocq" "https://rocq-prover.org" "A proof assistant";
                sample_hit "stdpp" "https://gitlab.mpi-sws.org/iris/stdpp" "A library"])])].

Definition sample_results : list SearchResult :=
  [mkResult (JStr "Rocq") (JStr "https://rocq-prover.org") (JStr "A proof assistant");
   mkResult (JStr "stdpp") (JStr "https://gitlab.mpi-sws.org/iris/stdpp") (JStr "A library")].

(** The provider answers every GET with two hits. *)
Definition brave_up (k : nat) (query : string) (num_results : Z) : http_outcome :=
  HttpResponse 200 (Some sample_payload).

(** The provider is unreachable. *)
Definition brave_down (k : nat) (query : string) (num_results : Z) : http_outcome :=
  ConnectionFailed.

(** The first GET of the session fails, the later ones succeed. *)
Definition brave_flaky (k : nat) (query : string) (num_results : Z) : http_outcome :=
  match k with
  | O => ConnectionFailed
  | S _ => HttpResponse 200 (Some sample_payload)
  end.

(** The provider answers 300 Multiple Choices with a body of hits. *)
Definition brave_multiple_choices (k : nat) (query : string) (num_results : Z)
  : http_outcome :=
  HttpResponse 300 (Some sample_payload).

Definition search_request (tool_id : string) : block :=
  ToolUse tool_id "web_search" (mkInput (Some "rocq") (Some 2%Z)).

(** The model asks for a web search at every call. *)
Definition claude_searching (k : nat) (msgs : list turn) : model_outcome :=
  Replied (mkResponse "tool_use"
             [TextBlock "Searching."; search_request ("toolu_" +:+ pretty k)]).

(** The model answers at once. *)
Definition claude_direct (k : nat) (msgs : list turn) : model_outcome :=
  Replied (mkResponse "end_turn" [TextBlock "Paris."]).

(** The model provider rejects every call. *)
Definition claude_overloaded (k : nat) (msgs : list turn) : model_outcome :=
  Failed (mkExn APIError "overloaded").

(** One search, then the provider fails. *)
Definition claude_then_down (k : nat) (msgs : list turn) : model_outcome :=
  match k with
  | O => Replied (mkResponse "tool_use" [search_request "toolu_0"])
  | S _ => Failed (mkExn OtherException "connection reset")
  end.

(** One search for three results, then the answer. *)
Definition claude_search_once (k : nat) (msgs : list turn) : model_outcome :=
  match k with
  | O => Replied (mkResponse "tool_use"
                    [ToolUse "toolu_0" "web_search" (mkInput (Some "X") (Some 3%Z))])
  | S _ => Replied (mkResponse "end_turn" [TextBlock "Here is what I found."])
  end.

(** A response asking for a tool that does not exist. *)
Definition calculator_response : response :=
  mkResponse "tool_use"
    [TextBlock "Let me compute.";
     ToolUse "toolu_0" "calculator" (mkInput None None)].


(** A response asking for an unknown tool first and a web search second. *)
Definition two_tools_response : response :=
  mkResponse "tool_use"
    [ToolUse "toolu_0" "calculator" (mkInput None None);
     search_request "toolu_1"].


(** ** The methods of [ResearchAssistant] *)

Section Assistant.

(** Python's [str()] on a decoded JSON value, as the f-strings of
    [format_search_results] apply it to the fields of a hit. *)
Variable py_str : json → string.

(** The search provider: outcome of the GET number [k] of the session,
    for the given query and count. *)
Variable brave : nat → string → Z → http_outcome.

(** The model provider: outcome of the call number [k] of the session,
    for the given messages. *)
Variable claude : nat → list turn → model_outcome.

(** [web_search(self, query, num_results)]: returns the object after the
    call and the list returned. *)
Definition web_search (st : ResearchAssistant) (query : string) (num_results : Z)
  : ResearchAssistant * list SearchResult :=
  match search_results_cache st !! cache_key query num_results with
  | Some cached => (st, cached)
  | None =>
      let resp := brave (length (http_log st)) query num_results in
      let st := log_http query num_results st in
      match fetch_results resp num_results with
      | Some processed_results =>
          (set_cache (<[cache_key query num_results := processed_results]>
                        (search_results_cache st)) st,
           processed_results)
      | None => (st, [])
      end
  end.

(** The body of the [for i, result in enumerate(results, 1)] loop of
    [format_search_results], with the three [+=] of one round. *)
Fixpoint format_loop (results : list SearchResult) (i : nat) (formatted : string)
  : string :=
  match results with
  | [] => formatted
  | result :: rest =>
      let formatted :=
        formatted +:+ (pretty i +:+ ". **" +:+ py_str (title result) +:+ "**" +:+ nl) in
      let formatted :=
        formatted +:+ ("   URL: " +:+ py_str (url result) +:+ nl) in
      let formatted :=
        formatted +:+ ("   " +:+ py_str (description result) +:+ nl +:+ nl) in
      format_loop rest (S i) formatted
  end.

(** [format_search_results(self, results)] *)
Definition format_search_results (results : list SearchResult) : string :=
  match results with
  | [] => "No search results found."
  | _ :: _ => format_loop results 1 ("### Search Results:" +:+ nl +:+ nl)
  end.

(** The two turns [handle_tool_use] appends for one tool call. *)
Definition tool_use_turn (tool_id tool_name : string) (input : tool_input) : turn :=
  mkTurn assistant (Blocks [ToolUse tool_id tool_name input]).

Definition tool_result_turn (tool_id formatted_results : string) : turn :=
  mkTurn user (Blocks [ToolResult tool_id formatted_results]).

(** [handle_tool_use(response)], as the scan of [response.content]. *)
Fixpoint handle_tool_use_items (st : ResearchAssistant) (items : list block)
  : ResearchAssistant * bool :=
  match items with
  | [] => (st, false)
  | ToolUse tool_id tool_name input :: rest =>
      if String.eqb tool_name "web_search" then
        let query := default EmptyString (input_query input) in
        let num_results := default 5%Z (input_num_results input) in
        let '(st, search_results) := web_search st query num_results in
        let formatted_results := format_search_results search_results in
        let st := history_append (tool_use_turn tool_id tool_name input) st in
        let st := history_append (tool_result_turn tool_id formatted_results) st in
        (st, true)
      else handle_tool_use_items st rest
  | _ :: rest => handle_tool_use_items st rest
  end.

Definition handle_tool_use (st : ResearchAssistant) (r : response)
  : ResearchAssistant * bool :=
  handle_tool_use_items st (resp_content r).

(** The [while iterations < max_iterations] loop.  [remaining] is
    [max_iterations - iterations]; [prev] is the local variable
    [response], unbound ([None]) before the first round.  The result is
    the exception that left the loop, or the value of [response] when the
    loop ends. *)
Fixpoint research_loop (remaining : nat) (prev : option response)
  (st : ResearchAssistant) : ResearchAssistant * (exn + option response) :=
  match remaining with
  | O => (st, inr prev)
  | S remaining =>
      let msgs := conversation_history st in
      let answer := claude (length (model_log st)) msgs in
      let st := log_model msgs answer st in
      match answer with
      | Failed e => (st, inl e)
      | Replied r =>
          if String.eqb (stop_reason r) "tool_use" then
            let '(st, tool_used) := handle_tool_use st r in
            if tool_used then research_loop remaining (Some r) st
            else (st, inr (Some r))
          else (st, inr (Some r))
      end
  end.

(** The concatenation of the text blocks of a response. *)
Fixpoint final_text_of (items : list block) : string :=
  match items with
  | [] => EmptyString
  | TextBlock text :: rest => text +:+ final_text_of rest
  | _ :: rest => final_text_of rest
  end.

(** The three [except] clauses. *)
Definition error_prefix (k : exn_class) : string :=
  match k with
  | APIError => "Anthropic API Error: "
  | RequestException => "Network Error: "
  | OtherException => "Unexpected Error: "
  end.

Definition error_msg (e : exn) : string :=
  error_prefix (exn_kind e) +:+ exn_str e.

(** Reading [response] while it is unbound raises UnboundLocalError, which
    the last [except] clause catches. *)
Definition unbound_response : exn :=
  mkExn OtherException
    "cannot access local variable 'response' where it is not associated with a value".

Definition user_turn (user_query : string) : turn :=
  mkTurn user (Plain user_query).

(** [process_research_query(self, user_query)] *)
Definition process_research_query (st : ResearchAssistant) (user_query : string)
  : ResearchAssistant * string :=
  let st := history_append (user_turn user_query) st in
  match research_loop max_iterations None st with
  | (st, inl e) => (st, error_msg e)
  | (st, inr None) => (st, error_msg unbound_response)
  | (st, inr (Some r)) =>
      let final_text := final_text_of (resp_content r) in
      let st :=
        if decide (final_text = EmptyString) then st
        else history_append (mkTurn assistant (Plain final_text)) st in
      (st, final_text)
  end.

(** [reset_conversation(self)] *)
Definition reset_conversation (st : ResearchAssistant) : ResearchAssistant * string :=
  (set_history [] st, "Conversation has been reset.").


(** ** Sessions *)

(** What a host can do with one assistant object after constructing it. *)
Inductive op : Type :=
| OpSearch (query : string) (num_results : Z)
| OpQuery (user_query : string)
| OpReset.

Definition run_op (st : ResearchAssistant) (o : op) : ResearchAssistant :=
  match o with
  | OpSearch query num_results => fst (web_search st query num_results)
  | OpQuery user_query => fst (process_research_query st user_query)
  | OpReset => fst (reset_conversation st)
  end.

Definition run_ops (ops : list op) (st : ResearchAssistant) : ResearchAssistant :=
  foldl run_op st ops.

(** ** Vocabulary of the properties *)

(** The block [handle_tool_use] acts on: the first tool_use block whose
    name is "web_search". *)
Fixpoint first_web_search (items : list block) : option (string * tool_input) :=
  match items with
  | [] => None
  | ToolUse tool_id tool_name input :: rest =>
      if String.eqb tool_name "web_search" then Some (tool_id, input)
      else first_web_search rest
  | _ :: rest => first_web_search rest
  end.

(** The object after a dispatched tool call: the search, then the two
    turns. *)
Definition after_tool_call (st : ResearchAssistant) (tool_id : string)
  (input : tool_input) : ResearchAssistant :=
  let '(st, search_results) :=
    web_search st (default EmptyString (input_query input))
      (default 5%Z (input_num_results input)) in
  history_append (tool_result_turn tool_id (format_search_results search_results))
    (history_append (tool_use_turn tool_id "web_search" input) st).

(** The identifiers of the tool_use blocks of a turn. *)
Definition tool_use_ids (t : turn) : list string :=
  match turn_content t with
  | Blocks bs =>
      omap (λ b, match b with ToolUse tool_id _ _ => Some tool_id | _ => None end) bs
  | Plain _ => []
  end.

(** [t] is a user turn holding a tool_result block for [tool_id]. *)
Definition answers (tool_id : string) (t : turn) : bool :=
  match turn_role t, turn_content t with
  | user, Blocks bs =>
      existsb (λ b, match b with
                    | ToolResult id' _ => String.eqb id' tool_id
                    | _ => false
                    end) bs
  | _, _ => false
  end.

(** No dangling tool_use: every turn holding a tool_use block is
    immediately followed by a user turn holding a tool_result block with
    the same identifier. *)
Fixpoint no_dangling (h : list turn) : bool :=
  match h with
  | [] => true
  | t :: rest =>
      forallb (λ tool_id, match rest with
                          | t' :: _ => answers tool_id t'
                          | [] => false
                          end) (tool_use_ids t)
      && no_dangling rest
  end.

(** A run of tool_use / tool_result pairs, as one query appends them. *)
Inductive tool_pairs : list turn → Prop :=
| tool_pairs_nil : tool_pairs []
| tool_pairs_snoc ps tool_id input formatted_results :
    tool_pairs ps →
    tool_pairs (ps ++ [tool_use_turn tool_id "web_search" input;
                       tool_result_turn tool_id formatted_results]).

(** The failures of the provider that the claim on [web_search] names:
    the request raises, the status is 4xx or 5xx, the body is not JSON. *)
Definition transport_error (resp : http_outcome) : Prop :=
  match resp with
  | ConnectionFailed => True
  | HttpResponse status_code body =>
      (400 ≤ status_code < 600)%Z ∨ body = None
  end.

(** The hits of a payload of the provider's shape: an object holding a
    "web" object holding a "results" array. *)
Definition payload_hits (results : json) : option (list json) :=
  match results with
  | JObj kvs =>
      match assoc "web" kvs with
      | Some (JObj web_kvs) =>
          match assoc "results" web_kvs with
          | Some (JArr hits) => Some hits
          | _ => None
          end
      | _ => None
      end
  | _ => None
  end.

Definition is_object (j : json) : bool :=
  match j with
  | JObj _ => true
  | _ => false
  end.

(** A malformed payload, for a search of [num_results] hits: the body does
    not decode as JSON, or the decoded value has not the provider's shape,
    or one of the hits the search reads is not an object. *)
Definition malformed_payload (num_results : Z) (body : option json) : bool :=
  match body with
  | None => true
  | Some results =>
      match payload_hits results with
      | Some hits => negb (forallb is_object (py_slice_to num_results hits))
      | None => true
      end
  end.

(** The failures of a search: the request raises, the status is 4xx or
    5xx, or the payload is malformed. *)
Definition search_failure (resp : http_outcome) (num_results : Z) : Prop :=
  match resp with
  | ConnectionFailed => True
  | HttpResponse status_code body =>
      (400 ≤ status_code < 600)%Z ∨ malformed_payload num_results body = true
  end.

(** The texts of the text blocks of a response, in the order of the
    response. *)
Definition text_blocks (items : list block) : list string :=
  omap (λ b, match b with
             | TextBlock text => Some text
             | _ => None
             end) items.

(** [s] occurs in [t]. *)
Definition occurs_in (s t : string) : Prop :=
  ∃ before after, t = before +:+ s +:+ after.

(** Number of GETs issued for one (query, count) pair. *)
Definition gets_for (query : string) (num_results : Z) (st : ResearchAssistant) : nat :=
  length (filter (λ p, p = (query, num_results)) (http_log st)).

(** The model calls an invocation added to the log. *)
Definition new_calls (st st' : ResearchAssistant) : list (list turn * model_outcome) :=
  drop (length (model_log st)) (model_log st').

(** One numbered entry of the rendering, after its "i. " prefix. *)
Definition entry_body (result : SearchResult) : string :=
  "**" +:+ py_str (title result) +:+ "**" +:+ nl +:+
  "   URL: " +:+ py_str (url result) +:+ nl +:+
  "   " +:+ py_str (description result) +:+ nl +:+ nl.

(** ** The page script *)

(** The body of [if st.button("Reset Conversation")]. *)
Definition press_reset (ss : session_state) : session_state :=
  let ss :=
    match ss_messages ss with
    | Some _ => mkSession (Some []) (ss_assistant ss)
    | None => ss
    end in
  match ss_assistant ss with
  | Some a => mkSession (ss_messages ss) (Some (fst (reset_conversation a)))
  | None => ss
  end.

(** One run of the script, from the sidebar to the chat input: Streamlit
    runs it again at every interaction, [st.session_state] being what is
    kept from one run to the next. *)
Definition script_run (ss : session_state) (w : widgets) : session_state :=
  let ss := if reset_button w then press_reset ss else ss in
  if bool_decide (anthropic_api_key w = EmptyString)
     || bool_decide (brave_api_key w = EmptyString)
  then ss
  else
    let a := match ss_assistant ss with Some a => a | None => init end in
    let messages := match ss_messages ss with Some ms => ms | None => [] end in
    match chat_input w with
    | Some prompt =>
        if bool_decide (prompt = EmptyString) then mkSession (Some messages) (Some a)
        else
          let messages := messages ++ [mkMessage user prompt] in
          let '(a, response) := process_research_query a prompt in
          mkSession (Some (messages ++ [mkMessage assistant response])) (Some a)
    | None => mkSession (Some messages) (Some a)
    end.

Definition script_runs (ws : list widgets) (ss : session_state) : session_state :=
  foldl script_run ss ws.

(** The session state of a browser session that has not run yet. *)
Definition fresh_session : session_state := mkSession None None.

(** ** Vocabulary of the further properties *)

(** The prompts typed by the user, as the history holds them (plain user
    turns) and as the transcript holds them (user messages). *)
Definition history_prompts (h : list turn) : list string :=
  omap (λ t, match turn_role t, turn_content t with
             | user, Plain s => Some s
             | _, _ => None
             end) h.

Definition transcript_prompts (ms : list chat_message) : list string :=
  omap (λ m, match msg_role m with
             | user => Some (msg_content m)
             | assistant => None
             end) ms.

(** The transcript is a sequence of user / assistant pairs. *)
Fixpoint alternates (ms : list chat_message) : bool :=
  match ms with
  | [] => true
  | m1 :: m2 :: rest =>
      bool_decide (msg_role m1 = user) && bool_decide (msg_role m2 = assistant)
      && alternates rest
  | [_] => false
  end.

(** No assistant turn directly follows an assistant turn. *)
Fixpoint no_adjacent_assistant (h : list turn) : bool :=
  match h with
  | t1 :: rest =>
      match rest with
      | t2 :: _ =>
          negb (bool_decide (turn_role t1 = assistant)
                && bool_decide (turn_role t2 = assistant))
      | [] => true
      end && no_adjacent_assistant rest
  | [] => true
  end.

(** The history is empty or opens with a user turn. *)
Definition starts_with_user (h : list turn) : bool :=
  match h with
  | [] => true
  | t :: _ => bool_decide (turn_role t = user)
  end.

(** ** Strings *)

Lemma string_app_assoc (a b c : string) : (a +:+ b) +:+ c = a +:+ (b +:+ c).
Proof.
  induction a as [|ch a IH]; [reflexivity|].
  change (String ch ((a +:+ b) +:+ c) = String ch (a +:+ (b +:+ c))).
  by rewrite IH.
Qed.

Lemma string_app_nil_r (a : string) : a +:+ EmptyString = a.
Proof.
  induction a as [|ch a IH]; [reflexivity|].
  change (String ch (a +:+ EmptyString) = String ch a). by rewrite IH.
Qed.

Lemma occurs_in_app_r (s a t : string) : occurs_in s t → occurs_in s (a +:+ t).
Proof.
  intros (before & after & ->). exists (a +:+ before), after.
  by rewrite string_app_assoc.
Qed.

Lemma occurs_in_head (s t : string) : occurs_in s (s +:+ t).
Proof. exists EmptyString, t. reflexivity. Qed.

(** ** The formatter *)

Lemma format_loop_entries (results : list SearchResult) :
  ∀ i formatted,
    format_loop results i formatted =
    formatted +:+
    foldr String.append EmptyString
      (imap (λ k result, pretty (i + k) +:+ ". " +:+ entry_body result) results).
Proof.
  induction results as [|result rest IH]; intros i formatted.
  - cbn [format_loop imap foldr]. by rewrite string_app_nil_r.
  - cbn [format_loop imap foldr]. rewrite IH.
    rewrite (imap_ext
               ((λ k r, pretty (i + k) +:+ ". " +:+ entry_body r) ∘ S)
               (λ k r, pretty (S i + k) +:+ ". " +:+ entry_body r) rest)
      by (intros k r _; cbn; by rewrite Nat.add_succ_r).
    rewrite Nat.add_0_r. unfold entry_body at 2.
    by rewrite !string_app_assoc.
Qed.

(** C4.  [format_search_results] maps the empty list to the fixed
    no-results sentence, and a non-empty list to the header followed by
    the entries written out here, exactly one per item and in input order:
    entry number [i + 1] is the decimal [i + 1], a dot, and on three lines
    the title, the URL and the description of item [i] (as [str()] renders
    them). *)
Theorem format_search_results_entries :
  format_search_results [] = "No search results found." ∧
  ∀ results : list SearchResult, results ≠ [] →
    let entries :=
      imap (λ i result,
              pretty (S i) +:+ ". " +:+
              ("**" +:+ py_str (title result) +:+ "**" +:+ nl +:+
               "   URL: " +:+ py_str (url result) +:+ nl +:+
               "   " +:+ py_str (description result) +:+ nl +:+ nl))
        results in
    format_search_results results =
      "### Search Results:" +:+ nl +:+ nl +:+
      foldr String.append EmptyString entries ∧
    length entries = length results ∧
    ∀ i result, results !! i = Some result →
      ∃ body,
        entries !! i = Some (pretty (S i) +:+ ". " +:+ body) ∧
        occurs_in (py_str (title result)) body ∧
        occurs_in (py_str (url result)) body ∧
        occurs_in (py_str (description result)) body.
Proof.
  split; [reflexivity|].
  intros results Hne. cbn zeta.
  change (imap _ results)
    with (imap (λ k result, pretty (S k) +:+ ". " +:+ entry_body result) results).
  split; [|split].
  - destruct results as [|r rest]; [done|].
    unfold format_search_results. rewrite format_loop_entries.
    by rewrite !string_app_assoc.
  - by rewrite length_imap.
  - intros i result Hi. exists (entry_body result). split.
    + rewrite list_lookup_imap, Hi. reflexivity.
    + unfold entry_body. split; [|split].
      * apply occurs_in_app_r, occurs_in_head.
      * do 5 apply occurs_in_app_r. apply occurs_in_head.
      * do 8 apply occurs_in_app_r. apply occurs_in_head.
Qed.

(** ** The search client *)

Lemma web_search_hit st query num_results cached :
  search_results_cache st !! cache_key query num_results = Some cached →
  web_search st query num_results = (st, cached).
Proof. intros H. unfold web_search. by rewrite H. Qed.

Lemma web_search_miss_ok st query num_results processed :
  search_results_cache st !! cache_key query num_results = None →
  fetch_results (brave (length (http_log st)) query num_results) num_results
    = Some processed →
  web_search st query num_results =
    (set_cache (<[cache_key query num_results := processed]> (search_results_cache st))
       (log_http query num_results st), processed).
Proof. intros Hc Hf. unfold web_search. by rewrite Hc, Hf. Qed.

Lemma web_search_miss_raise st query num_results :
  search_results_cache st !! cache_key query num_results = None →
  fetch_results (brave (length (http_log st)) query num_results) num_results = None →
  web_search st query num_results = (log_http query num_results st, []).
Proof. intros Hc Hf. unfold web_search. by rewrite Hc, Hf. Qed.

(** The three shapes of one call. *)
Lemma web_search_cases st query num_results :
  (∃ cached, search_results_cache st !! cache_key query num_results = Some cached ∧
             web_search st query num_results = (st, cached)) ∨
  (search_results_cache st !! cache_key query num_results = None ∧
   ((∃ processed,
       web_search st query num_results =
         (set_cache (<[cache_key query num_results := processed]>
                       (search_results_cache st))
            (log_http query num_results st), processed)) ∨
    web_search st query num_results = (log_http query num_results st, []))).
Proof.
  destruct (search_results_cache st !! cache_key query num_results) as [c|] eqn:Hc.
  - left. exists c. split; [done|]. by apply web_search_hit.
  - right. split; [done|].
    destruct (fetch_results (brave (length (http_log st)) query num_results)
                num_results) as [p|] eqn:Hf.
    + left. exists p. by apply web_search_miss_ok.
    + right. by apply web_search_miss_raise.
Qed.

Lemma web_search_frame st query num_results :
  conversation_history (fst (web_search st query num_results))
    = conversation_history st ∧
  model_log (fst (web_search st query num_results)) = model_log st.
Proof.
  destruct (web_search_cases st query num_results)
    as [(c & _ & ->)|(_ & [(p & ->)| ->])]; done.
Qed.

Lemma web_search_http_log st query num_results :
  http_log (fst (web_search st query num_results)) = http_log st ∨
  http_log (fst (web_search st query num_results))
    = http_log st ++ [(query, num_results)].
Proof.
  destruct (web_search_cases st query num_results)
    as [(c & _ & ->)|(_ & [(p & ->)| ->])]; cbn; auto.
Qed.

(** An entry of the cache is never overwritten or dropped by a search. *)
Lemma web_search_keeps st query num_results key cached :
  search_results_cache st !! key = Some cached →
  search_results_cache (fst (web_search st query num_results)) !! key = Some cached.
Proof.
  intros Hk.
  destruct (web_search_cases st query num_results)
    as [(c & _ & ->)|(Hc & [(p & ->)| ->])]; cbn; try done.
  rewrite lookup_insert_ne; [done|]. intros Heq. congruence.
Qed.

(** A search issues no GET for a pair whose key is cached. *)
Lemma web_search_gets st query num_results q n cached :
  search_results_cache st !! cache_key q n = Some cached →
  gets_for q n (fst (web_search st query num_results)) = gets_for q n st.
Proof.
  intros Hk. unfold gets_for.
  destruct (web_search_cases st query num_results)
    as [(c & _ & ->)|(Hc & Hw)]; [done|].
  assert ((query, num_results) ≠ (q, n)) as Hne by (intros [= -> ->]; congruence).
  destruct Hw as [(p & ->)| ->]; cbn;
    rewrite filter_app, filter_cons_False, filter_nil, app_nil_r; done.
Qed.

Lemma transport_error_raises resp num_results :
  transport_error resp → fetch_results resp num_results = None.
Proof.
  destruct resp as [|status_code body]; [done|]. cbn.
  intros [Hs| ->].
  - unfold raise_for_status.
    destruct (400 <=? status_code)%Z eqn:H1; [|lia].
    destruct (status_code <? 600)%Z eqn:H2; [done|lia].
  - by destruct (raise_for_status status_code).
Qed.

Lemma append_items_chars (cs : list Ascii.ascii) acc :
  append_items ((λ c, JStr (String c EmptyString)) <$> cs) acc =
    match cs with [] => Some acc | _ :: _ => None end.
Proof. by destruct cs. Qed.

(** X2.  A non-empty result comes from a well-shaped payload only: a status
    that is not 4xx or 5xx, an object holding a "web" object holding a
    "results" array whose items up to the count are all objects. *)
Lemma fetch_results_nonempty resp num_results result rest :
  fetch_results resp num_results = Some (result :: rest) →
  ∃ status_code kvs web_kvs hits,
    resp = HttpResponse status_code (Some (JObj kvs)) ∧
    raise_for_status status_code = false ∧
    assoc "web" kvs = Some (JObj web_kvs) ∧
    assoc "results" web_kvs = Some (JArr hits) ∧
    append_items (py_slice_to num_results hits) [] = Some (result :: rest).
Proof.
  destruct resp as [|status_code [results|]]; cbn; try done.
  - destruct (raise_for_status status_code) eqn:Hst; [done|]. cbn.
    destruct results as [| | | |xs|kvs]; cbn; try done.
    + destruct (is_substring "web" s); done.
    + destruct (existsb (is_str "web") xs); done.
    + destruct (assoc "web" kvs) as [web|] eqn:Hweb; cbn; [|done].
      destruct web as [| | | |xs|web_kvs]; cbn; try done.
      * destruct (is_substring "results" s); done.
      * destruct (existsb (is_str "results") xs); done.
      * destruct (assoc "results" web_kvs) as [hits|] eqn:Hhits; cbn; [|done].
        destruct hits as [| | | |hits|]; cbn; try done.
        -- rewrite append_items_chars. by destruct (py_slice_to _ _).
        -- intros Hitems. by exists status_code, kvs, web_kvs, hits.
  - by destruct (raise_for_status status_code).
Qed.

(** ** The cache key *)

Lemma pretty_N_go_no_underscore x :
  ∀ s, no_underscore s = true → no_underscore (pretty_N_go x s) = true.
Proof.
  induction (N.lt_wf_0 x) as [x _ IH]; intros s Hs.
  assert (x = 0 ∨ 0 < x)%N as [->|Hpos] by lia.
  - by rewrite pretty_N_go_0.
  - rewrite pretty_N_go_step by done. apply IH; [by apply N.div_lt|].
    cbn. rewrite Hs, andb_true_r. unfold pretty_N_char. by repeat case_match.
Qed.

Lemma pretty_N_no_underscore (x : N) : no_underscore (pretty x) = true.
Proof.
  unfold pretty, pretty_N. case_decide; [done|].
  by apply pretty_N_go_no_underscore.
Qed.

Lemma pretty_Z_no_underscore (n : Z) : no_underscore (pretty n) = true.
Proof.
  destruct n as [|p|p]; [done|..].
  - apply (pretty_N_no_underscore (N.pos p)).
  - change (no_underscore (String (Ascii.ascii_of_nat 45) (pretty (N.pos p))) = true).
    apply (pretty_N_no_underscore (N.pos p)).
Qed.

Lemma no_underscore_app_underscore (r a : string) :
  no_underscore (r +:+ "_" +:+ a) = false.
Proof.
  induction r as [|c r IH]; [done|].
  change (negb (Ascii.eqb c underscore) && no_underscore (r +:+ "_" +:+ a) = false).
  by rewrite IH, andb_false_r.
Qed.

Lemma underscore_split (q q' a a' : string) :
  no_underscore a = true → no_underscore a' = true →
  q +:+ "_" +:+ a = q' +:+ "_" +:+ a' → q = q' ∧ a = a'.
Proof.
  intros Ha Ha'. revert q'. induction q as [|c q IH]; intros [|c' q'] Heq.
  - change (String underscore a = String underscore a') in Heq.
    by injection Heq.
  - change (String underscore a = String c' (q' +:+ "_" +:+ a')) in Heq.
    injection Heq as _ ->. by rewrite no_underscore_app_underscore in Ha.
  - change (String c (q +:+ "_" +:+ a) = String underscore a') in Heq.
    injection Heq as _ <-. by rewrite no_underscore_app_underscore in Ha'.
  - change (String c (q +:+ "_" +:+ a) = String c' (q' +:+ "_" +:+ a')) in Heq.
    injection Heq as -> Heq. by apply IH in Heq as [-> ->].
Qed.

(** Distinct (query, count) pairs have distinct cache keys. *)
Lemma cache_key_inj (query query' : string) (num_results num_results' : Z) :
  cache_key query num_results = cache_key query' num_results' →
  query = query' ∧ num_results = num_results'.
Proof.
  intros Heq. apply underscore_split in Heq as [-> Hn];
    [|apply pretty_Z_no_underscore..].
  split; [done|]. by apply (inj pretty).
Qed.

(** ** The tool handler *)

Lemma handle_tool_use_items_eq st items :
  handle_tool_use_items st items =
    match first_web_search items with
    | Some (tool_id, input) => (after_tool_call st tool_id input, true)
    | None => (st, false)
    end.
Proof.
  induction items as [|b rest IH]; [done|].
  destruct b as [text|tool_id tool_name input|tool_use_id c|]; cbn; try done.
  destruct (String.eqb_spec tool_name "web_search") as [->|Hne]; [|done].
  unfold after_tool_call.
  by destruct (web_search st _ _).
Qed.

Lemma first_web_search_app before tool_id input after :
  (∀ id' name' input', ToolUse id' name' input' ∈ before → name' ≠ "web_search") →
  first_web_search (before ++ ToolUse tool_id "web_search" input :: after)
    = Some (tool_id, input).
Proof.
  induction before as [|b rest IH]; intros Hb; [done|].
  cbn. destruct b as [text|id' name' input'|tool_use_id c|];
    try (apply IH; intros ??? Hin; eapply Hb; by right).
  destruct (String.eqb_spec name' "web_search") as [->|Hne].
  - exfalso. eapply Hb; [by left|done].
  - apply IH. intros ??? Hin. eapply Hb. by right.
Qed.


Lemma after_tool_call_history st tool_id input :
  conversation_history (after_tool_call st tool_id input) =
    conversation_history st ++
    [tool_use_turn tool_id "web_search" input;
     tool_result_turn tool_id
       (format_search_results
          (snd (web_search st (default EmptyString (input_query input))
                  (default 5%Z (input_num_results input)))))].
Proof.
  unfold after_tool_call.
  pose proof (web_search_frame st (default EmptyString (input_query input))
                (default 5%Z (input_num_results input))) as [Hh _].
  destruct (web_search st _ _) as [st1 rs]. cbn in *.
  by rewrite Hh, <- app_assoc.
Qed.

Lemma after_tool_call_frame st tool_id input :
  model_log (after_tool_call st tool_id input) = model_log st ∧
  http_log (after_tool_call st tool_id input) =
    http_log (fst (web_search st (default EmptyString (input_query input))
                     (default 5%Z (input_num_results input)))) ∧
  search_results_cache (after_tool_call st tool_id input) =
    search_results_cache
      (fst (web_search st (default EmptyString (input_query input))
              (default 5%Z (input_num_results input)))).
Proof.
  unfold after_tool_call.
  pose proof (web_search_frame st (default EmptyString (input_query input))
                (default 5%Z (input_num_results input))) as [_ Hm].
  destruct (web_search st _ _) as [st1 rs]. cbn in *. by rewrite Hm.
Qed.

(** ** One round of the loop *)

Lemma research_loop_failed remaining prev st e :
  claude (length (model_log st)) (conversation_history st) = Failed e →
  research_loop (S remaining) prev st =
    (log_model (conversation_history st) (Failed e) st, inl e).
Proof. intros H. cbn. by rewrite H. Qed.

Lemma research_loop_final remaining prev st r :
  claude (length (model_log st)) (conversation_history st) = Replied r →
  stop_reason r ≠ "tool_use" →
  research_loop (S remaining) prev st =
    (log_model (conversation_history st) (Replied r) st, inr (Some r)).
Proof.
  intros H Hs. cbn. rewrite H.
  by destruct (String.eqb_spec (stop_reason r) "tool_use").
Qed.

Lemma research_loop_no_tool remaining prev st r :
  claude (length (model_log st)) (conversation_history st) = Replied r →
  first_web_search (resp_content r) = None →
  research_loop (S remaining) prev st =
    (log_model (conversation_history st) (Replied r) st, inr (Some r)).
Proof.
  intros H Hn. cbn. rewrite H.
  destruct (String.eqb (stop_reason r) "tool_use"); [|done].
  unfold handle_tool_use. by rewrite handle_tool_use_items_eq, Hn.
Qed.

Lemma research_loop_tool remaining prev st r tool_id input :
  claude (length (model_log st)) (conversation_history st) = Replied r →
  stop_reason r = "tool_use" →
  first_web_search (resp_content r) = Some (tool_id, input) →
  research_loop (S remaining) prev st =
    research_loop remaining (Some r)
      (after_tool_call (log_model (conversation_history st) (Replied r) st)
         tool_id input).
Proof.
  intros H Hs Hf. cbn. rewrite H, Hs. cbn.
  unfold handle_tool_use. by rewrite handle_tool_use_items_eq, Hf.
Qed.

Lemma tool_pairs_app ps qs : tool_pairs ps → tool_pairs qs → tool_pairs (ps ++ qs).
Proof.
  intros Hp Hq. induction Hq as [|qs tool_id input res _ IH].
  - by rewrite app_nil_r.
  - rewrite app_assoc. by constructor.
Qed.

Lemma tool_pairs_one tool_id input res :
  tool_pairs [tool_use_turn tool_id "web_search" input; tool_result_turn tool_id res].
Proof. apply (tool_pairs_snoc []). constructor. Qed.

(** The bookkeeping of a round that ends the loop after one model call. *)
Local Ltac one_call st o :=
  exists [(conversation_history st, o)], (@nil turn);
  cbn; rewrite app_nil_r;
  split; [done|]; split; [done|]; split; [lia|];
  split; [apply tool_pairs_nil|]; split; [|split];
  [ intros [|?] ? ? Hi; [|done]; injection Hi as <- <-;
    exists []; split; [apply tool_pairs_nil|by rewrite app_nil_r]
  | intros ? ? ? _ Hlt; cbn in Hlt; lia
  | ].

(** What a run of the loop leaves behind: [new] are the model calls it
    logged, [ps] the turns it appended. *)
Lemma research_loop_facts remaining :
  ∀ prev st st' res,
    research_loop remaining prev st = (st', res) →
    ∃ new ps,
      model_log st' = model_log st ++ new ∧
      conversation_history st' = conversation_history st ++ ps ∧
      length new ≤ remaining ∧
      tool_pairs ps ∧
      (∀ i m o, new !! i = Some (m, o) →
         ∃ ps', tool_pairs ps' ∧ m = conversation_history st ++ ps') ∧
      (∀ i m o, new !! i = Some (m, o) → S i < length new →
         ∃ r, o = Replied r ∧ stop_reason r = "tool_use" ∧
              is_Some (first_web_search (resp_content r))) ∧
      match res with
      | inl e => last new = Some (conversation_history st', Failed e)
      | inr None => remaining = 0 ∧ prev = None
      | inr (Some r) =>
          (remaining = 0 ∧ st' = st ∧ prev = Some r) ∨
          (∃ m, last new = Some (m, Replied r) ∧
             (((stop_reason r ≠ "tool_use" ∨ first_web_search (resp_content r) = None) ∧
               conversation_history st' = m) ∨
              (stop_reason r = "tool_use" ∧ length new = remaining ∧
               ∃ tool_id input formatted,
                 first_web_search (resp_content r) = Some (tool_id, input) ∧
                 conversation_history st' =
                   m ++ [tool_use_turn tool_id "web_search" input;
                         tool_result_turn tool_id formatted])))
      end.
Proof.
  induction remaining as [|remaining IH]; intros prev st st' res Hrun.
  - cbn in Hrun. injection Hrun as <- <-.
    exists [], []. rewrite !app_nil_r.
    split; [done|]. split; [done|]. split; [done|].
    split; [apply tool_pairs_nil|]. split; [done|]. split; [done|].
    destruct prev; [left|]; done.
  - destruct (claude (length (model_log st)) (conversation_history st))
      as [r|e] eqn:Hc.
    + destruct (decide (stop_reason r = "tool_use")) as [Hs|Hs];
        [destruct (first_web_search (resp_content r)) as [[tool_id input]|] eqn:Hf|].
      * rewrite (research_loop_tool _ _ _ _ _ _ Hc Hs Hf) in Hrun.
        apply IH in Hrun as (new & ps & Hlog & Hhist & Hlen & Hps & Hmsgs & Hmid & Hres).
        rewrite after_tool_call_history in Hhist, Hmsgs.
        destruct (after_tool_call_frame
                    (log_model (conversation_history st) (Replied r) st) tool_id input)
          as (Hm & _ & _).
        rewrite Hm in Hlog. cbn in Hlog, Hhist, Hmsgs.
        set (res1 := format_search_results _) in *.
        exists ((conversation_history st, Replied r) :: new),
          ([tool_use_turn tool_id "web_search" input; tool_result_turn tool_id res1] ++ ps).
        split; [by rewrite Hlog, <- app_assoc|].
        split; [by rewrite Hhist, <- app_assoc|].
        split; [cbn; lia|].
        split; [apply tool_pairs_app; [apply tool_pairs_one|done]|].
        split; [|split].
        -- intros [|i] m o Hi; cbn in Hi.
           ++ injection Hi as <- <-. exists [].
              split; [apply tool_pairs_nil|by rewrite app_nil_r].
           ++ apply Hmsgs in Hi as (ps' & Hps' & ->).
              exists ([tool_use_turn tool_id "web_search" input;
                       tool_result_turn tool_id res1] ++ ps').
              split; [apply tool_pairs_app; [apply tool_pairs_one|done]|].
              by rewrite <- app_assoc.
        -- intros [|i] m o Hi Hlt; cbn in Hi, Hlt.
           ++ injection Hi as <- <-. exists r. by rewrite Hf.
           ++ eapply Hmid; [done|lia].
        -- destruct res as [e|[r'|]].
           ++ rewrite last_cons, Hres. done.
           ++ destruct Hres as [(-> & -> & [= <-])|(m & Hlast & Hcases)].
              ** right. exists (conversation_history st).
                 destruct new; [|cbn in Hlen; lia].
                 split; [done|]. right. split; [done|]. split; [done|].
                 exists tool_id, input, res1. split; [done|].
                 rewrite after_tool_call_history. done.
              ** right. exists m. rewrite last_cons, Hlast. split; [done|].
                 destruct Hcases as [?|(? & ? & ?)]; [by left|right].
                 split; [done|]. split; [cbn; lia|done].
           ++ destruct Hres as [_ [=]].
      * rewrite (research_loop_no_tool _ _ _ _ Hc Hf) in Hrun.
        injection Hrun as <- <-. one_call st (Replied r).
        right. exists (conversation_history st). split; [done|]. left. auto.
      * rewrite (research_loop_final _ _ _ _ Hc Hs) in Hrun.
        injection Hrun as <- <-. one_call st (Replied r).
        right. exists (conversation_history st). split; [done|]. left. auto.
    + rewrite (research_loop_failed _ _ _ _ Hc) in Hrun.
      injection Hrun as <- <-. one_call st (Failed e). done.
Qed.

(** ** Pairing of tool calls in the history *)

Lemma no_dangling_app h ps :
  no_dangling h = true → no_dangling ps = true → no_dangling (h ++ ps) = true.
Proof.
  intros Hh Hps. induction h as [|t rest IH]; [done|].
  cbn in Hh |- *. apply andb_true_iff in Hh as [Hids Hrest].
  apply andb_true_iff. split; [|by apply IH].
  destruct rest as [|t' rest']; [|done].
  destruct (tool_use_ids t); [done|]. cbn in Hids. done.
Qed.

Lemma no_dangling_pair tool_id tool_name input formatted :
  no_dangling [tool_use_turn tool_id tool_name input;
               tool_result_turn tool_id formatted] = true.
Proof. cbn. by rewrite String.eqb_refl. Qed.

Lemma no_dangling_pairs h ps :
  no_dangling h = true → tool_pairs ps → no_dangling (h ++ ps) = true.
Proof.
  intros Hh Hps. induction Hps as [|ps tool_id input res _ IH].
  - by rewrite app_nil_r.
  - rewrite app_assoc. apply no_dangling_app; [done|apply no_dangling_pair].
Qed.

Lemma no_dangling_plain h r s :
  no_dangling h = true → no_dangling (h ++ [mkTurn r (Plain s)]) = true.
Proof. intros Hh. by apply no_dangling_app. Qed.

Lemma tool_pairs_blocks ps t :
  tool_pairs ps → t ∈ ps → ∃ bs, turn_content t = Blocks bs.
Proof.
  induction 1 as [|ps tool_id input res _ IH]; [by intros ?%elem_of_nil|].
  rewrite elem_of_app. intros [Hin|Hin]; [by apply IH|].
  apply elem_of_cons in Hin as [->|Hin]; [by eexists|].
  apply list_elem_of_singleton in Hin as ->. by eexists.
Qed.

Lemma tool_pairs_last_user h q ps :
  tool_pairs ps →
  turn_role <$> last (h ++ user_turn q :: ps) = Some user.
Proof.
  destruct 1 as [|ps tool_id input res _].
  - by rewrite last_snoc.
  - replace (h ++ user_turn q :: ps ++
               [tool_use_turn tool_id "web_search" input; tool_result_turn tool_id res])
      with ((h ++ user_turn q :: ps ++ [tool_use_turn tool_id "web_search" input])
              ++ [tool_result_turn tool_id res])
      by (rewrite <- app_assoc; cbn; by rewrite <- app_assoc).
    by rewrite last_snoc.
Qed.

(** The boolean [no_dangling] read turn by turn. *)
Lemma no_dangling_spec (h : list turn) :
  no_dangling h = true ↔
  ∀ i t tool_id,
    h !! i = Some t → tool_id ∈ tool_use_ids t →
    ∃ t', h !! S i = Some t' ∧ answers tool_id t' = true.
Proof.
  induction h as [|t0 rest IH]; [done|].
  cbn [no_dangling]. rewrite andb_true_iff, IH, forallb_forall. split.
  - intros [Hhead Hrest] [|i] t tool_id Hi Hid; cbn in Hi.
    + injection Hi as <-. apply list_elem_of_In, Hhead in Hid.
      destruct rest as [|t' rest']; [done|]. by exists t'.
    + by eapply Hrest.
  - intros Hall. split.
    + intros tool_id Hid%list_elem_of_In.
      destruct (Hall 0 t0 tool_id eq_refl Hid) as (t' & Ht' & Hans).
      destruct rest as [|t'' rest']; [done|]. cbn in Ht'. by injection Ht' as ->.
    + intros i t tool_id Hi Hid. by apply (Hall (S i) t tool_id).
Qed.

(** ** The cache across the loop *)

Lemma after_tool_call_keeps st tool_id input q n cached :
  search_results_cache st !! cache_key q n = Some cached →
  search_results_cache (after_tool_call st tool_id input) !! cache_key q n
    = Some cached ∧
  gets_for q n (after_tool_call st tool_id input) = gets_for q n st.
Proof.
  intros Hk.
  destruct (after_tool_call_frame st tool_id input) as (_ & Hl & Hc).
  split.
  - rewrite Hc. by apply web_search_keeps.
  - unfold gets_for. rewrite Hl. by eapply web_search_gets.
Qed.

Lemma research_loop_keeps remaining q n cached :
  ∀ prev st,
    search_results_cache st !! cache_key q n = Some cached →
    search_results_cache (fst (research_loop remaining prev st)) !! cache_key q n
      = Some cached ∧
    gets_for q n (fst (research_loop remaining prev st)) = gets_for q n st.
Proof.
  induction remaining as [|remaining IH]; intros prev st Hk; [done|].
  destruct (claude (length (model_log st)) (conversation_history st))
    as [r|e] eqn:Hc.
  - destruct (decide (stop_reason r = "tool_use")) as [Hs|Hs];
      [destruct (first_web_search (resp_content r)) as [[tool_id input]|] eqn:Hf|].
    + rewrite (research_loop_tool _ _ _ _ _ _ Hc Hs Hf).
      destruct (after_tool_call_keeps
                  (log_model (conversation_history st) (Replied r) st)
                  tool_id input q n cached Hk) as [Hk1 Hg1].
      destruct (IH (Some r) _ Hk1) as [Hk2 Hg2].
      split; [done|]. by rewrite Hg2, Hg1.
    + by rewrite (research_loop_no_tool _ _ _ _ Hc Hf).
    + by rewrite (research_loop_final _ _ _ _ Hc Hs).
  - by rewrite (research_loop_failed _ _ _ _ Hc).
Qed.

Lemma process_research_query_keeps st user_query q n cached :
  search_results_cache st !! cache_key q n = Some cached →
  search_results_cache (fst (process_research_query st user_query)) !! cache_key q n
    = Some cached ∧
  gets_for q n (fst (process_research_query st user_query)) = gets_for q n st.
Proof.
  intros Hk. unfold process_research_query.
  pose proof (research_loop_keeps max_iterations q n cached None
                (history_append (user_turn user_query) st) Hk) as [Hk1 Hg1].
  destruct (research_loop max_iterations None _) as [st1 [e|[r|]]]; cbn in *;
    try done.
  by destruct (decide _).
Qed.

Lemma run_ops_keeps ops :
  ∀ st q n cached,
    search_results_cache st !! cache_key q n = Some cached →
    search_results_cache (run_ops ops st) !! cache_key q n = Some cached ∧
    gets_for q n (run_ops ops st) = gets_for q n st.
Proof.
  induction ops as [|o ops IH]; intros st q n cached Hk; [done|].
  cbn. assert (search_results_cache (run_op st o) !! cache_key q n = Some cached ∧
               gets_for q n (run_op st o) = gets_for q n st) as [Hk1 Hg1].
  { destruct o as [query num_results|user_query|]; cbn.
    - split; [by apply web_search_keeps|by eapply web_search_gets].
    - by apply process_research_query_keeps.
    - done. }
  destruct (IH _ q n cached Hk1) as [Hk2 Hg2]. split; [done|].
  unfold run_ops in Hg2. by rewrite Hg2.
Qed.

(** ** One query *)

Lemma new_calls_app st st' new :
  model_log st' = model_log st ++ new → new_calls st st' = new.
Proof. intros H. unfold new_calls. by rewrite H, drop_app_length. Qed.

(** What one query leaves behind: [new] are its model calls, [ps] the
    tool pairs it appended after the user turn.  It ends either on a
    failed model call, or on a reply whose text it returns. *)
Lemma process_research_query_facts st user_query :
  ∃ new ps,
    let st' := fst (process_research_query st user_query) in
    let out := snd (process_research_query st user_query) in
    let h0 := conversation_history st ++ [user_turn user_query] in
    model_log st' = model_log st ++ new ∧
    length new ≤ max_iterations ∧
    tool_pairs ps ∧
    (∀ i m o, new !! i = Some (m, o) → ∃ ps', tool_pairs ps' ∧ m = h0 ++ ps') ∧
    (∀ i m o, new !! i = Some (m, o) → S i < length new →
       ∃ r, o = Replied r ∧ stop_reason r = "tool_use" ∧
            is_Some (first_web_search (resp_content r))) ∧
    ((∃ e, last new = Some (h0 ++ ps, Failed e) ∧
           out = error_msg e ∧
           conversation_history st' = h0 ++ ps) ∨
     (∃ m r, last new = Some (m, Replied r) ∧
             out = final_text_of (resp_content r) ∧
             conversation_history st' =
               (h0 ++ ps) ++
               (if decide (out = EmptyString) then []
                else [mkTurn assistant (Plain out)]) ∧
             (((stop_reason r ≠ "tool_use" ∨
                first_web_search (resp_content r) = None) ∧ h0 ++ ps = m) ∨
              (stop_reason r = "tool_use" ∧ length new = max_iterations ∧
               ∃ tool_id input formatted,
                 first_web_search (resp_content r) = Some (tool_id, input) ∧
                 h0 ++ ps = m ++ [tool_use_turn tool_id "web_search" input;
                                  tool_result_turn tool_id formatted])))).
Proof.
  unfold process_research_query.
  destruct (research_loop max_iterations None
              (history_append (user_turn user_query) st)) as [st1 res] eqn:Hrun.
  apply research_loop_facts in Hrun
    as (new & ps & Hlog & Hhist & Hlen & Hps & Hmsgs & Hmid & Hres).
  cbn in Hlog, Hhist, Hmsgs.
  exists new, ps. cbn zeta.
  destruct res as [e|[r|]].
  - cbn. repeat (split; [done|]).
    left. exists e. by rewrite <- Hhist.
  - destruct Hres as [([=] & _)|(m & Hlast & Hcases)].
    cbn [fst snd].
    assert (model_log
              (if decide (final_text_of (resp_content r) = EmptyString) then st1
               else history_append
                      (mkTurn assistant (Plain (final_text_of (resp_content r)))) st1)
            = model_log st1) as -> by (by destruct (decide _)).
    repeat (split; [done|]).
    right. exists m, r. split; [done|]. split; [done|]. split.
    + destruct (decide (final_text_of (resp_content r) = EmptyString)); cbn.
      * by rewrite app_nil_r.
      * by rewrite Hhist.
    + rewrite <- Hhist. destruct Hcases as [[? ?]|(? & ? & ?)]; [by left|by right].
  - by destruct Hres as [[=] _].
Qed.

Lemma research_loop_first_call remaining prev st :
  ∃ rest,
    model_log (fst (research_loop (S remaining) prev st)) =
      model_log st ++
      (conversation_history st,
       claude (length (model_log st)) (conversation_history st)) :: rest.
Proof.
  destruct (claude (length (model_log st)) (conversation_history st))
    as [r|e] eqn:Hc.
  - destruct (decide (stop_reason r = "tool_use")) as [Hs|Hs];
      [destruct (first_web_search (resp_content r)) as [[tool_id input]|] eqn:Hf|].
    + rewrite (research_loop_tool _ _ _ _ _ _ Hc Hs Hf).
      destruct (research_loop remaining (Some r) _) as [st1 res] eqn:Hrun.
      apply research_loop_facts in Hrun as (new & _ & Hlog & _).
      destruct (after_tool_call_frame
                  (log_model (conversation_history st) (Replied r) st) tool_id input)
        as (Hm & _ & _).
      rewrite Hm in Hlog. cbn in Hlog |- *. exists new.
      by rewrite Hlog, <- app_assoc.
    + rewrite (research_loop_no_tool _ _ _ _ Hc Hf). by exists [].
    + rewrite (research_loop_final _ _ _ _ Hc Hs). by exists [].
  - rewrite (research_loop_failed _ _ _ _ Hc). by exists [].
Qed.

Lemma process_research_query_first_call st user_query :
  ∃ rest,
    new_calls st (fst (process_research_query st user_query)) =
      (conversation_history st ++ [user_turn user_query],
       claude (length (model_log st))
         (conversation_history st ++ [user_turn user_query])) :: rest.
Proof.
  destruct (research_loop_first_call 4 None
              (history_append (user_turn user_query) st)) as [rest Hrest].
  exists rest. apply new_calls_app.
  unfold process_research_query. fold max_iterations in Hrest.
  destruct (research_loop max_iterations None _) as [st1 [e|[r|]]];
    cbn in Hrest |- *; try done.
  by destruct (decide _).
Qed.

Lemma process_research_query_final st user_query r :
  claude (length (model_log st))
    (conversation_history st ++ [user_turn user_query]) = Replied r →
  stop_reason r ≠ "tool_use" →
  snd (process_research_query st user_query) = final_text_of (resp_content r).
Proof.
  intros Hc Hs. unfold process_research_query, max_iterations.
  by rewrite (research_loop_final 4 None
                (history_append (user_turn user_query) st) r Hc Hs).
Qed.

Lemma process_research_query_no_dangling st user_query :
  no_dangling (conversation_history st) = true →
  no_dangling (conversation_history (fst (process_research_query st user_query)))
    = true.
Proof.
  intros Hinv.
  destruct (process_research_query_facts st user_query)
    as (new & ps & _ & _ & Hps & _ & _ & Hend).
  cbn zeta in *.
  assert (no_dangling (conversation_history st ++ [user_turn user_query]) = true)
    as Hh0 by (by apply no_dangling_plain).
  destruct Hend as [(e & _ & _ & ->)|(m & r & _ & _ & -> & _)].
  - by apply no_dangling_pairs.
  - apply no_dangling_app; [by apply no_dangling_pairs|].
    by destruct (decide _).
Qed.

Lemma run_ops_no_dangling ops :
  ∀ st,
    no_dangling (conversation_history st) = true →
    no_dangling (conversation_history (run_ops ops st)) = true.
Proof.
  induction ops as [|o ops IH]; intros st Hinv; [done|].
  cbn. apply IH. destruct o as [query num_results|user_query|]; cbn.
  - by destruct (web_search_frame st query num_results) as [-> _].
  - by apply process_research_query_no_dangling.
  - done.
Qed.

Lemma final_text_of_text_blocks items :
  final_text_of items = foldr String.append EmptyString (text_blocks items).
Proof.
  induction items as [|b rest IH]; [done|].
  destruct b; cbn; by rewrite ?IH.
Qed.

(** ** Failing searches *)

Lemma append_items_all_objects items :
  ∀ acc rs, append_items items acc = Some rs → forallb is_object items = true.
Proof.
  induction items as [|item rest IH]; intros acc rs Heq; [done|].
  cbn in Heq |- *. destruct item; try done. cbn in Heq. by eapply IH.
Qed.

Lemma fetch_results_cons_shape resp num_results result rest :
  fetch_results resp num_results = Some (result :: rest) →
  ∃ status_code results hits,
    resp = HttpResponse status_code (Some results) ∧
    raise_for_status status_code = false ∧
    payload_hits results = Some hits ∧
    append_items (py_slice_to num_results hits) [] = Some (result :: rest).
Proof.
  destruct resp as [|status_code [results|]]; cbn; try done.
  - destruct (raise_for_status status_code) eqn:Hst; [done|]. cbn.
    destruct results as [| | | |xs|kvs]; cbn; try done.
    + destruct (is_substring "web" s); done.
    + destruct (existsb (is_str "web") xs); done.
    + destruct (assoc "web" kvs) as [web|] eqn:Hweb; cbn; [|done].
      destruct web as [| | | |xs|web_kvs]; cbn; try done.
      * destruct (is_substring "results" s); done.
      * destruct (existsb (is_str "results") xs); done.
      * destruct (assoc "results" web_kvs) as [hits|] eqn:Hhits; cbn; [|done].
        destruct hits as [| | | |hits|]; cbn; try done.
        -- rewrite append_items_chars. by destruct (py_slice_to _ _).
        -- intros Hitems. exists status_code, (JObj kvs), hits.
           split; [done|]. split; [done|]. split; [|done].
           cbn. by rewrite Hweb, Hhits.
  - by destruct (raise_for_status status_code).
Qed.

Lemma transport_error_search_failure resp num_results :
  transport_error resp → search_failure resp num_results.
Proof.
  destruct resp as [|status_code body]; [done|]. cbn.
  intros [Hs| ->]; [by left|by right].
Qed.

(** A failing search yields no hit: its try block raises or ends with the
    empty list. *)
Lemma search_failure_empty resp num_results :
  search_failure resp num_results →
  fetch_results resp num_results = None ∨ fetch_results resp num_results = Some [].
Proof.
  intros Hfail.
  destruct (fetch_results resp num_results) as [[|result rest]|] eqn:Hf;
    [by right| |by left].
  exfalso.
  apply fetch_results_cons_shape in Hf
    as (status_code & results & hits & -> & Hst & Hhits & Hitems).
  cbn in Hfail. destruct Hfail as [Hs|Hm].
  - unfold raise_for_status in Hst.
    apply andb_false_iff in Hst as [H|H];
      [apply Z.leb_gt in H|apply Z.ltb_ge in H]; lia.
  - rewrite Hhits in Hm. apply append_items_all_objects in Hitems.
    by rewrite Hitems in Hm.
Qed.

Lemma web_search_failure st query num_results :
  search_results_cache st !! cache_key query num_results = None →
  search_failure (brave (length (http_log st)) query num_results) num_results →
  snd (web_search st query num_results) = [] ∧
  http_log (fst (web_search st query num_results))
    = http_log st ++ [(query, num_results)].
Proof.
  intros Hmiss Hfail.
  destruct (search_failure_empty _ _ Hfail) as [Hf|Hf].
  - by rewrite (web_search_miss_raise _ _ _ Hmiss Hf).
  - by rewrite (web_search_miss_ok _ _ _ _ Hmiss Hf).
Qed.

(** ** The properties *)

(** C1.  One call of [process_research_query] issues at most five model
    calls.  When a fifth call is answered, it is the last one and the text
    returned is the text of that fifth response: the texts of its text
    blocks, concatenated in the order of the response (the empty string
    when it has none); and when every response of the invocation asks for
    a web search (stop reason tool_use and a web_search block), the fifth
    call is reached. *)
Theorem process_research_query_call_bound st user_query :
  let st' := fst (process_research_query st user_query) in
  let out := snd (process_research_query st user_query) in
  let new := new_calls st st' in
  length new ≤ 5 ∧
  (∀ m r, new !! 4 = Some (m, Replied r) →
     length new = 5 ∧
     out = foldr String.append EmptyString (text_blocks (resp_content r))) ∧
  ((∀ m o, (m, o) ∈ new →
      ∃ r, o = Replied r ∧ stop_reason r = "tool_use" ∧
           is_Some (first_web_search (resp_content r))) →
   ∃ m r, new !! 4 = Some (m, Replied r)).
Proof.
  destruct (process_research_query_facts st user_query)
    as (new & ps & Hlog & Hlen & _ & _ & _ & Hend).
  cbn zeta in *. rewrite (new_calls_app _ _ _ Hlog).
  unfold max_iterations in *.
  split; [done|]. split.
  - intros m r H4.
    assert (length new = 5) as Hl5 by (apply lookup_lt_Some in H4; lia).
    split; [done|].
    assert (last new = Some (m, Replied r)) as Hlast
      by (by rewrite last_lookup, Hl5).
    destruct Hend as [(e & He & _)|(m' & r' & Hr & Hout & _)]; [congruence|].
    rewrite <- final_text_of_text_blocks. congruence.
  - intros Hall.
    destruct Hend as [(e & He & _)|(m' & r' & Hr & _ & _ & Hcases)].
    + apply last_Some_elem_of, Hall in He as (r & [=] & _).
    + pose proof (last_Some_elem_of _ _ Hr) as Hin.
      apply Hall in Hin as (r & [= <-] & Hs & Hw).
      destruct Hcases as [[[?|Hn] _]|(_ & Hl5 & _)].
      * done.
      * rewrite Hn in Hw. by destruct Hw.
      * exists m', r'. by rewrite last_lookup, Hl5 in Hr.
Qed.

(** C2.  Started on a history without dangling tool_use, one call of
    [process_research_query] passes to every model call messages without
    dangling tool_use (every turn holding a tool_use block is immediately
    followed by a user turn holding the tool_result of the same
    identifier), and leaves such a history behind. *)
Theorem no_dangling_at_every_model_call st user_query :
  no_dangling (conversation_history st) = true →
  (∀ m o, (m, o) ∈ new_calls st (fst (process_research_query st user_query)) →
     no_dangling m = true) ∧
  no_dangling (conversation_history (fst (process_research_query st user_query)))
    = true.
Proof.
  intros Hinv.
  destruct (process_research_query_facts st user_query)
    as (new & ps & Hlog & _ & Hps & Hmsgs & _ & Hend).
  cbn zeta in *. rewrite (new_calls_app _ _ _ Hlog).
  assert (no_dangling (conversation_history st ++ [user_turn user_query]) = true)
    as Hh0 by (by apply no_dangling_plain).
  split.
  - intros m o Hin. apply list_elem_of_lookup in Hin as [i Hi].
    apply Hmsgs in Hi as (ps' & Hps' & ->). by apply no_dangling_pairs.
  - destruct Hend as [(e & _ & _ & ->)|(m & r & _ & _ & -> & _)].
    + by apply no_dangling_pairs.
    + apply no_dangling_app; [by apply no_dangling_pairs|].
      by destruct (decide _).
Qed.

(** C3, as the code has it.  A [web_search] that misses the cache and
    completes without raising issues exactly one GET for its
    (query, count) pair and, whatever the session does next (other
    searches, queries, resets), every later [web_search] with the same pair
    issues none and returns the same cached list.  A [web_search] that
    misses the cache and whose try block raises returns the empty list and
    leaves the cache as it was, so that the next [web_search] with the same
    pair issues a new GET; the try block raises when the request fails, the
    status is 4xx or 5xx, or the body is not JSON. *)
Theorem web_search_cached_once :
  (∀ st query num_results processed ops,
     search_results_cache st !! cache_key query num_results = None →
     fetch_results (brave (length (http_log st)) query num_results) num_results
       = Some processed →
     let st1 := fst (web_search st query num_results) in
     let st2 := run_ops ops st1 in
     snd (web_search st query num_results) = processed ∧
     gets_for query num_results st1 = S (gets_for query num_results st) ∧
     web_search st2 query num_results = (st2, processed) ∧
     gets_for query num_results (fst (web_search st2 query num_results))
       = S (gets_for query num_results st)) ∧
  (∀ st query num_results,
     search_results_cache st !! cache_key query num_results = None →
     fetch_results (brave (length (http_log st)) query num_results) num_results
       = None →
     let st1 := fst (web_search st query num_results) in
     snd (web_search st query num_results) = [] ∧
     search_results_cache st1 = search_results_cache st ∧
     gets_for query num_results st1 = S (gets_for query num_results st) ∧
     gets_for query num_results (fst (web_search st1 query num_results))
       = S (S (gets_for query num_results st))) ∧
  (∀ resp num_results,
     transport_error resp → fetch_results resp num_results = None).
Proof.
  assert (∀ st query num_results,
            gets_for query num_results (log_http query num_results st)
            = S (gets_for query num_results st)) as Hlogged.
  { intros st query num_results. unfold gets_for. cbn.
    rewrite filter_app, filter_cons_True, filter_nil by done.
    rewrite length_app. cbn. lia. }
  split; [|split].
  - intros st query num_results processed ops Hmiss Hok. cbn zeta.
    rewrite (web_search_miss_ok _ _ _ _ Hmiss Hok). cbn [fst snd].
    set (st1 := set_cache _ _).
    assert (search_results_cache st1 !! cache_key query num_results = Some processed)
      as Hk1 by apply lookup_insert_eq.
    assert (gets_for query num_results st1 = S (gets_for query num_results st))
      as Hg1 by apply Hlogged.
    destruct (run_ops_keeps ops st1 query num_results processed Hk1) as [Hk2 Hg2].
    rewrite (web_search_hit _ _ _ _ Hk2). cbn [fst].
    split; [done|]. split; [done|]. split; [done|]. by rewrite Hg2.
  - intros st query num_results Hmiss Hraise. cbn zeta.
    rewrite (web_search_miss_raise _ _ _ Hmiss Hraise). cbn [fst snd].
    split; [done|]. split; [done|]. split; [apply Hlogged|].
    destruct (web_search_cases (log_http query num_results st) query num_results)
      as [(c & Hc & _)|(_ & [(p & ->)| ->])]; [cbn in Hc; congruence|..];
      cbn [fst]; rewrite <- (Hlogged st), <- (Hlogged (log_http query num_results st));
      done.
  - intros resp num_results. apply transport_error_raises.
Qed.

(** C5, as the code has it.  [handle_tool_use] acts on one block at most:
    it issues at most one GET and appends either nothing or one
    tool_use / tool_result pair; the block acted on is the first tool_use
    block named web_search, tool_use blocks of other names before it
    being passed over. *)
Theorem handle_tool_use_one_dispatch st r :
  let st' := fst (handle_tool_use st r) in
  length (http_log st') ≤ S (length (http_log st)) ∧
  ((snd (handle_tool_use st r) = false ∧ st' = st) ∨
   (∃ tool_id input formatted,
      snd (handle_tool_use st r) = true ∧
      conversation_history st' =
        conversation_history st ++
        [tool_use_turn tool_id "web_search" input;
         tool_result_turn tool_id formatted])) ∧
  (∀ before tool_id input after,
     resp_content r = before ++ ToolUse tool_id "web_search" input :: after →
     (∀ id' name' input', ToolUse id' name' input' ∈ before → name' ≠ "web_search") →
     let query := default EmptyString (input_query input) in
     let num_results := default 5%Z (input_num_results input) in
     snd (handle_tool_use st r) = true ∧
     http_log st' = http_log (fst (web_search st query num_results)) ∧
     conversation_history st' =
       conversation_history st ++
       [tool_use_turn tool_id "web_search" input;
        tool_result_turn tool_id
          (format_search_results (snd (web_search st query num_results)))]).
Proof.
  cbn zeta. unfold handle_tool_use. rewrite handle_tool_use_items_eq.
  split; [|split].
  - destruct (first_web_search (resp_content r)) as [[tool_id input]|]; cbn; [|lia].
    destruct (after_tool_call_frame st tool_id input) as (_ & -> & _).
    destruct (web_search_http_log st (default EmptyString (input_query input))
                (default 5%Z (input_num_results input))) as [-> | ->];
      [lia|rewrite length_app; cbn; lia].
  - destruct (first_web_search (resp_content r)) as [[tool_id input]|]; cbn;
      [right|by left].
    eexists tool_id, input, _. split; [done|]. apply after_tool_call_history.
  - intros before tool_id input after -> Hbefore.
    rewrite (first_web_search_app _ _ _ _ Hbefore). cbn [fst snd].
    split; [done|]. split.
    + by destruct (after_tool_call_frame st tool_id input) as (_ & -> & _).
    + apply after_tool_call_history.
Qed.


(** C7, as the code has it.  When a [web_search] that misses the cache
    fails (the request raises, the status is 4xx or 5xx, or the payload is
    malformed: a body that is not JSON, a value without the "web" object
    and its "results" array, a hit among those read that is not an
    object), it returns the empty list and does not raise; after a
    transport error nothing else changes but the GET log.  The round of
    the loop that asked for the search then goes on as for any search: the
    pair is appended with the no-results sentence as tool result, and the
    loop continues with its next round, whose model call receives the
    history so extended. *)
Theorem web_search_transport_error_continues :
  (∀ st query num_results,
     search_results_cache st !! cache_key query num_results = None →
     search_failure (brave (length (http_log st)) query num_results) num_results →
     snd (web_search st query num_results) = [] ∧
     http_log (fst (web_search st query num_results))
       = http_log st ++ [(query, num_results)] ∧
     (transport_error (brave (length (http_log st)) query num_results) →
      web_search st query num_results = (log_http query num_results st, []))) ∧
  format_search_results [] = "No search results found." ∧
  (∀ remaining prev st r tool_id input,
     let query := default EmptyString (input_query input) in
     let num_results := default 5%Z (input_num_results input) in
     claude (length (model_log st)) (conversation_history st) = Replied r →
     stop_reason r = "tool_use" →
     first_web_search (resp_content r) = Some (tool_id, input) →
     search_results_cache st !! cache_key query num_results = None →
     search_failure (brave (length (http_log st)) query num_results) num_results →
     ∃ st2,
       research_loop (S remaining) prev st = research_loop remaining (Some r) st2 ∧
       conversation_history st2 =
         conversation_history st ++
         [tool_use_turn tool_id "web_search" input;
          tool_result_turn tool_id "No search results found."] ∧
       http_log st2 = http_log st ++ [(query, num_results)] ∧
       model_log st2 = model_log st ++ [(conversation_history st, Replied r)] ∧
       (transport_error (brave (length (http_log st)) query num_results) →
        search_results_cache st2 = search_results_cache st) ∧
       ∀ k, ∃ rest,
         model_log (fst (research_loop (S k) (Some r) st2)) =
           model_log st2 ++
           (conversation_history st2,
            claude (length (model_log st2)) (conversation_history st2)) :: rest).
Proof.
  split; [|split; [done|]].
  - intros st query num_results Hmiss Hfail.
    destruct (web_search_failure st query num_results Hmiss Hfail) as [Hres Hlog].
    split; [done|]. split; [done|]. intros Herr.
    apply web_search_miss_raise; [done|]. by apply transport_error_raises.
  - intros remaining prev st r tool_id input. cbn zeta. intros Hc Hs Hf Hmiss Hfail.
    set (st0 := log_model (conversation_history st) (Replied r) st).
    exists (after_tool_call st0 tool_id input).
    destruct (web_search_failure st0 (default EmptyString (input_query input))
                (default 5%Z (input_num_results input)) Hmiss Hfail) as [Hres Hlog].
    destruct (after_tool_call_frame st0 tool_id input) as (Hm & Hl & Hca).
    pose proof (after_tool_call_history st0 tool_id input) as Hh.
    rewrite Hres in Hh.
    split; [by apply research_loop_tool|].
    split; [done|]. split; [by rewrite Hl, Hlog|]. split; [done|]. split.
    + intros Herr. rewrite Hca.
      rewrite (web_search_miss_raise st0 _ _ Hmiss); [done|].
      by apply transport_error_raises.
    + intros k. apply research_loop_first_call.
Qed.

(** C8.  When a model call of a query fails, no further model call is
    made, and [process_research_query] returns (it does not raise) the
    text of the exception behind the prefix of its kind: "Anthropic API
    Error: " for an API error, "Network Error: " for a request exception,
    "Unexpected Error: " for any other; the history stays as it was passed
    to the failing call, and the object serves the next query: if the
    model then answers without asking for a tool, that answer's text is
    returned. *)
Theorem model_failure_returns_error_string st user_query i m e :
  let st' := fst (process_research_query st user_query) in
  let out := snd (process_research_query st user_query) in
  new_calls st st' !! i = Some (m, Failed e) →
  S i = length (new_calls st st') ∧
  out = match exn_kind e with
        | APIError => "Anthropic API Error: "
        | RequestException => "Network Error: "
        | OtherException => "Unexpected Error: "
        end +:+ exn_str e ∧
  conversation_history st' = m ∧
  ∀ next_query r,
    claude (length (model_log st'))
      (conversation_history st' ++ [user_turn next_query]) = Replied r →
    stop_reason r ≠ "tool_use" →
    snd (process_research_query st' next_query) = final_text_of (resp_content r).
Proof.
  cbn zeta. intros Hi.
  destruct (process_research_query_facts st user_query)
    as (new & ps & Hlog & _ & _ & _ & Hmid & Hend).
  cbn zeta in *. rewrite (new_calls_app _ _ _ Hlog) in *.
  assert (S i = length new) as Hlast.
  { pose proof (lookup_lt_Some _ _ _ Hi).
    destruct (decide (S i < length new)) as [Hlt|]; [|lia].
    by destruct (Hmid _ _ _ Hi Hlt) as (r' & [=] & _). }
  split; [done|].
  assert (last new = Some (m, Failed e)) as Hl by (by rewrite last_lookup, <- Hlast).
  destruct Hend as [(e' & He & Hout & Hh)|(m' & r' & Hr & _)]; [|congruence].
  rewrite Hl in He. injection He as Hm He. subst m e'.
  split; [by rewrite Hout|]. split; [done|].
  intros next_query r Hc Hs. by apply process_research_query_final.
Qed.

(** C9.  [reset_conversation] empties the history, returns its
    confirmation sentence and leaves the cache as it was, entry by entry;
    on an object whose history is already empty it changes nothing. *)
Theorem reset_conversation_keeps_cache st :
  conversation_history (fst (reset_conversation st)) = [] ∧
  snd (reset_conversation st) = "Conversation has been reset." ∧
  search_results_cache (fst (reset_conversation st)) = search_results_cache st ∧
  (∀ key cached,
     search_results_cache st !! key = Some cached →
     search_results_cache (fst (reset_conversation st)) !! key = Some cached) ∧
  (conversation_history st = [] → fst (reset_conversation st) = st).
Proof.
  repeat split; try done.
  destruct st as [h c l ml]. cbn. by intros ->.
Qed.

(** C10.  When a query ends on a failed model call, the history is the
    earlier history, the user turn of the query and the tool pairs of the
    rounds before the failure: the error text is not among the turns
    appended, the last turn is a user turn, and the first model call of the
    next query receives a history ending in two user turns. *)
Theorem failed_query_leaves_user_turn st user_query m e :
  let st' := fst (process_research_query st user_query) in
  let out := snd (process_research_query st user_query) in
  last (model_log st') = Some (m, Failed e) →
  out = error_msg e ∧
  (∃ ps,
     conversation_history st' =
       conversation_history st ++ user_turn user_query :: ps ∧
     ∀ t, t ∈ ps → ∃ bs, turn_content t = Blocks bs) ∧
  turn_role <$> last (conversation_history st') = Some user ∧
  ∀ next_query,
    ∃ h t o rest,
      turn_role t = user ∧
      conversation_history st' = h ++ [t] ∧
      new_calls st' (fst (process_research_query st' next_query)) =
        (h ++ [t; user_turn next_query], o) :: rest.
Proof.
  cbn zeta. intros Hl.
  destruct (process_research_query_facts st user_query)
    as (new & ps & Hlog & _ & Hps & _ & _ & Hend).
  cbn zeta in *. rewrite Hlog, last_app in Hl.
  destruct Hend as [(e' & He & Hout & Hh)|(m' & r' & Hr & _)];
    [|rewrite Hr in Hl; congruence].
  rewrite He in Hl. injection Hl as Hm Hl. subst m e'.
  assert (turn_role <$> last (conversation_history
                                (fst (process_research_query st user_query)))
          = Some user) as Hrole.
  { rewrite Hh, <- app_assoc. by apply tool_pairs_last_user. }
  split; [done|]. split; [|split; [done|]].
  - exists ps. split; [by rewrite Hh, <- app_assoc|].
    intros t Hin. by eapply tool_pairs_blocks.
  - intros next_query.
    destruct (process_research_query_first_call
                (fst (process_research_query st user_query)) next_query)
      as [rest Hrest].
    destruct (last (conversation_history
                      (fst (process_research_query st user_query))))
      as [t|] eqn:Hlast; [|done].
    apply last_Some in Hlast as [h Hh'].
    eexists h, t, _, rest. split; [by injection Hrole|]. split; [done|].
    rewrite Hrest, Hh', <- app_assoc. done.
Qed.

(** ** Further properties of the search client *)

Lemma append_items_objects items :
  ∀ acc,
    (∀ item, item ∈ items → ∃ kvs, item = JObj kvs) →
    ∃ rs,
      append_items items acc = Some (acc ++ rs) ∧
      length rs = length items ∧
      ∀ i kvs, items !! i = Some (JObj kvs) →
        rs !! i = Some {| title := default (JStr "") (assoc "title" kvs);
                          url := default (JStr "") (assoc "url" kvs);
                          description := default (JStr "") (assoc "description" kvs) |}.
Proof.
  induction items as [|item rest IH]; intros acc Hobj.
  - exists []. by rewrite app_nil_r.
  - destruct (Hobj item) as [kvs ->]; [by left|].
    cbn [append_items item_record].
    destruct (IH (acc ++ [{| title := default (JStr "") (assoc "title" kvs);
                             url := default (JStr "") (assoc "url" kvs);
                             description := default (JStr "") (assoc "description" kvs) |}]))
      as (rs & Heq & Hlen & Hrs); [intros ??; apply Hobj; by right|].
    eexists (_ :: rs). split; [by rewrite Heq, <- app_assoc|].
    split; [cbn; by rewrite Hlen|].
    intros [|i] kvs' Hi; cbn in Hi |- *; [by injection Hi as ->|by apply Hrs].
Qed.

Lemma append_items_length items :
  ∀ acc rs, append_items items acc = Some rs → length rs = length acc + length items.
Proof.
  induction items as [|item rest IH]; intros acc rs Heq; cbn in Heq.
  - injection Heq as <-. cbn. lia.
  - destruct (item_record item); [|done].
    apply IH in Heq. rewrite length_app in Heq. cbn in *. lia.
Qed.

Lemma py_slice_to_length {A} (n : Z) (l : list A) :
  (0 ≤ n)%Z → length (py_slice_to n l) = Z.to_nat n `min` length l.
Proof.
  intros Hn. unfold py_slice_to.
  destruct (0 <=? n)%Z eqn:H0; [|lia]. by rewrite length_take.
Qed.

(** X1.  On a response that does not raise and whose payload holds a "web"
    object holding a "results" array, the items up to the count being all
    objects, the try block of [web_search] yields one record per item of
    the slice, in the order of the payload, each field being the item's
    value or the empty string when the item lacks the key; items after the
    count are not looked at, and with a count of zero or more the result
    has min(count, number of hits) records. *)
Theorem fetch_results_well_shaped status_code kvs web_kvs hits num_results :
  raise_for_status status_code = false →
  assoc "web" kvs = Some (JObj web_kvs) →
  assoc "results" web_kvs = Some (JArr hits) →
  (∀ item, item ∈ py_slice_to num_results hits → ∃ fields, item = JObj fields) →
  ∃ processed,
    fetch_results (HttpResponse status_code (Some (JObj kvs))) num_results
      = Some processed ∧
    length processed = length (py_slice_to num_results hits) ∧
    ((0 ≤ num_results)%Z →
     length processed = Z.to_nat num_results `min` length hits) ∧
    ∀ i fields, hits !! i = Some (JObj fields) →
      i < length processed →
      processed !! i =
        Some {| title := default (JStr "") (assoc "title" fields);
                url := default (JStr "") (assoc "url" fields);
                description := default (JStr "") (assoc "description" fields) |}.
Proof.
  intros Hst Hweb Hhits Hobj.
  destruct (append_items_objects (py_slice_to num_results hits) [] Hobj)
    as (rs & Heq & Hlen & Hrs).
  exists rs. split; [|split; [done|split]].
  - cbn. rewrite Hst. cbn. rewrite Hweb. cbn. rewrite Hhits. cbn. done.
  - intros Hn. by rewrite Hlen, py_slice_to_length.
  - intros i fields Hi Hlt. apply Hrs.
    rewrite Hlen in Hlt. unfold py_slice_to in *.
    destruct (0 <=? num_results)%Z; rewrite length_take in Hlt;
      rewrite lookup_take_lt by lia; done.
Qed.


Lemma fetch_results_length resp num_results processed :
  fetch_results resp num_results = Some processed →
  (0 ≤ num_results)%Z →
  length processed ≤ Z.to_nat num_results.
Proof.
  intros Hf Hn.
  destruct resp as [|status_code [results|]]; cbn in Hf; try done;
    destruct (raise_for_status status_code); try done. cbn in Hf.
  assert (∀ b : bool, (if b then None else Some []) = Some processed →
                      length processed ≤ Z.to_nat num_results) as Hflag.
  { intros [] [= <-]. cbn. lia. }
  destruct results as [| | | |xs|kvs]; cbn in Hf; try done; try by eapply Hflag.
  destruct (assoc "web" kvs) as [web|]; cbn in Hf;
    [|injection Hf as <-; cbn; lia].
  destruct web as [| | | |xs|web_kvs]; cbn in Hf; try done; try by eapply Hflag.
  destruct (assoc "results" web_kvs) as [hits|]; cbn in Hf;
    [|injection Hf as <-; cbn; lia].
  destruct hits as [| | | |hits|]; cbn in Hf; try done.
  - rewrite append_items_chars in Hf.
    destruct (py_slice_to _ _); [|done]. injection Hf as <-. cbn. lia.
  - apply append_items_length in Hf.
    rewrite Hf, py_slice_to_length by done. cbn. lia.
Qed.

Lemma web_search_miss_length st query num_results :
  search_results_cache st !! cache_key query num_results = None →
  (0 ≤ num_results)%Z →
  length (snd (web_search st query num_results)) ≤ Z.to_nat num_results.
Proof.
  intros Hmiss Hn. unfold web_search. rewrite Hmiss.
  destruct (fetch_results _ _) as [p|] eqn:Hf; cbn; [|lia].
  by eapply fetch_results_length.
Qed.

(** A property of the cache and of the GETs issued that every search keeps
    is kept by the loop, by a query and by a whole session. *)
Lemma research_loop_invariant
    (P : gmap string (list SearchResult) → list (string * Z) → Prop) :
  (∀ st query num_results,
      P (search_results_cache st) (http_log st) →
      P (search_results_cache (fst (web_search st query num_results)))
        (http_log (fst (web_search st query num_results)))) →
  ∀ remaining prev st,
    P (search_results_cache st) (http_log st) →
    P (search_results_cache (fst (research_loop remaining prev st)))
      (http_log (fst (research_loop remaining prev st))).
Proof.
  intros Hsearch. induction remaining as [|remaining IH]; intros prev st HP; [done|].
  destruct (claude (length (model_log st)) (conversation_history st))
    as [r|e] eqn:Hc.
  - destruct (decide (stop_reason r = "tool_use")) as [Hs|Hs];
      [destruct (first_web_search (resp_content r)) as [[tool_id input]|] eqn:Hf|].
    + rewrite (research_loop_tool _ _ _ _ _ _ Hc Hs Hf). apply IH.
      destruct (after_tool_call_frame
                  (log_model (conversation_history st) (Replied r) st) tool_id input)
        as (_ & -> & ->).
      by apply (Hsearch (log_model (conversation_history st) (Replied r) st)).
    + by rewrite (research_loop_no_tool _ _ _ _ Hc Hf).
    + by rewrite (research_loop_final _ _ _ _ Hc Hs).
  - by rewrite (research_loop_failed _ _ _ _ Hc).
Qed.

Lemma process_research_query_invariant
    (P : gmap string (list SearchResult) → list (string * Z) → Prop) :
  (∀ st query num_results,
      P (search_results_cache st) (http_log st) →
      P (search_results_cache (fst (web_search st query num_results)))
        (http_log (fst (web_search st query num_results)))) →
  ∀ st user_query,
    P (search_results_cache st) (http_log st) →
    P (search_results_cache (fst (process_research_query st user_query)))
      (http_log (fst (process_research_query st user_query))).
Proof.
  intros Hsearch st user_query HP. unfold process_research_query.
  pose proof (research_loop_invariant P Hsearch max_iterations None
                (history_append (user_turn user_query) st) HP) as HP1.
  destruct (research_loop max_iterations None _) as [st1 [e|[r|]]]; cbn in *;
    try done.
  by destruct (decide _).
Qed.

Lemma run_ops_invariant
    (P : gmap string (list SearchResult) → list (string * Z) → Prop) :
  (∀ st query num_results,
      P (search_results_cache st) (http_log st) →
      P (search_results_cache (fst (web_search st query num_results)))
        (http_log (fst (web_search st query num_results)))) →
  ∀ ops st,
    P (search_results_cache st) (http_log st) →
    P (search_results_cache (run_ops ops st)) (http_log (run_ops ops st)).
Proof.
  intros Hsearch. induction ops as [|o ops IH]; intros st HP; [done|].
  cbn. apply IH. destruct o as [query num_results|user_query|]; cbn.
  - by apply Hsearch.
  - by apply process_research_query_invariant.
  - done.
Qed.

(** X3.  In a session started from a fresh assistant, whatever was done
    before, [web_search] with a count of zero or more returns at most that
    many hits, be they fetched or read from the cache. *)
Theorem web_search_at_most_count ops query num_results :
  (0 ≤ num_results)%Z →
  length (snd (web_search (run_ops ops init) query num_results))
    ≤ Z.to_nat num_results.
Proof.
  intros Hn.
  set (P := λ (c : gmap string (list SearchResult)) (_ : list (string * Z)),
              ∀ q n rs, c !! cache_key q n = Some rs → (0 ≤ n)%Z →
                        length rs ≤ Z.to_nat n).
  assert (P (search_results_cache (run_ops ops init)) (http_log (run_ops ops init)))
    as Hinv.
  { apply run_ops_invariant; [|by intros q n rs ?].
    clear. intros st query num_results HP q n rs Hk Hn.
    destruct (web_search_cases st query num_results)
      as [(c & _ & Hw)|(Hmiss & [(p & Hw)|Hw])]; rewrite Hw in Hk; cbn in Hk;
      [by eapply HP| |by eapply HP].
    destruct (decide (cache_key query num_results = cache_key q n)) as [Heq|Hne].
    - rewrite Heq, lookup_insert_eq in Hk. injection Hk as ->.
      apply cache_key_inj in Heq as [-> ->].
      pose proof (web_search_miss_length st q n Hmiss Hn) as Hlen.
      by rewrite Hw in Hlen.
    - rewrite lookup_insert_ne in Hk by done. by eapply HP. }
  destruct (web_search_cases (run_ops ops init) query num_results)
    as [(c & Hc & ->)|(Hmiss & [(p & Hw)| ->])]; cbn [snd].
  - by eapply Hinv.
  - by apply web_search_miss_length.
  - cbn. lia.
Qed.

(** X4.  A response that does not raise but holds no hits (an object
    without "web", or whose "web" object has no "results") makes
    [web_search] return the empty list and cache it: unlike after a
    failure, the next search of the pair issues no GET. *)
Theorem web_search_no_results_cached st query num_results status_code kvs :
  search_results_cache st !! cache_key query num_results = None →
  brave (length (http_log st)) query num_results
    = HttpResponse status_code (Some (JObj kvs)) →
  raise_for_status status_code = false →
  (assoc "web" kvs = None ∨
   ∃ web_kvs, assoc "web" kvs = Some (JObj web_kvs) ∧ assoc "results" web_kvs = None) →
  let st1 := fst (web_search st query num_results) in
  snd (web_search st query num_results) = [] ∧
  http_log st1 = http_log st ++ [(query, num_results)] ∧
  search_results_cache st1 !! cache_key query num_results = Some [] ∧
  web_search st1 query num_results = (st1, []).
Proof.
  intros Hmiss Hresp Hst Hshape. cbn zeta.
  assert (fetch_results (brave (length (http_log st)) query num_results) num_results
          = Some []) as Hf.
  { rewrite Hresp. cbn. rewrite Hst. cbn.
    destruct Hshape as [->|(web_kvs & -> & Hr)]; [done|]. cbn. by rewrite Hr. }
  rewrite (web_search_miss_ok _ _ _ _ Hmiss Hf). cbn [fst snd].
  split; [done|]. split; [done|].
  assert (search_results_cache
            (set_cache (<[cache_key query num_results:=[]]> (search_results_cache st))
               (log_http query num_results st)) !! cache_key query num_results
          = Some []) as Hk by apply lookup_insert_eq.
  split; [done|]. by apply web_search_hit.
Qed.

(** X5.  Searches for different (query, count) pairs do not interfere: a
    search leaves the cache entry of every other pair as it was, cached or
    not, and issues no GET for it. *)
Theorem web_search_other_pair st query num_results query' num_results' :
  (query, num_results) ≠ (query', num_results') →
  search_results_cache (fst (web_search st query num_results))
    !! cache_key query' num_results'
  = search_results_cache st !! cache_key query' num_results' ∧
  gets_for query' num_results' (fst (web_search st query num_results))
  = gets_for query' num_results' st.
Proof.
  intros Hne.
  assert (cache_key query num_results ≠ cache_key query' num_results') as Hkey.
  { intros [-> ->]%cache_key_inj. done. }
  unfold gets_for.
  destruct (web_search_cases st query num_results)
    as [(c & _ & ->)|(_ & [(p & ->)| ->])]; cbn; try done.
  - rewrite lookup_insert_ne by done.
    by rewrite filter_app, filter_cons_False, filter_nil, app_nil_r.
  - by rewrite filter_app, filter_cons_False, filter_nil, app_nil_r.
Qed.

(** X6.  In a session started from a fresh assistant, nothing is in the
    cache that was not fetched: every key of the cache is the key of a
    (query, count) pair for which a GET was issued. *)
Theorem cached_only_after_get ops key cached :
  search_results_cache (run_ops ops init) !! key = Some cached →
  ∃ query num_results,
    key = cache_key query num_results ∧
    (query, num_results) ∈ http_log (run_ops ops init).
Proof.
  revert key cached.
  apply (run_ops_invariant
           (λ c l, ∀ key cached, c !! key = Some cached →
                     ∃ query num_results,
                       key = cache_key query num_results ∧ (query, num_results) ∈ l));
    [|by intros key cached ?].
  intros st query num_results HP key cached Hk.
  destruct (web_search_cases st query num_results)
    as [(c & _ & Hw)|(Hmiss & [(p & Hw)|Hw])]; rewrite Hw in Hk |- *; cbn in *.
  - by eapply HP.
  - destruct (decide (cache_key query num_results = key)) as [<-|Hne].
    + exists query, num_results. split; [done|]. apply elem_of_app. right. by left.
    + rewrite lookup_insert_ne in Hk by done.
      destruct (HP _ _ Hk) as (q & n & -> & Hin). exists q, n.
      split; [done|]. apply elem_of_app. by left.
  - destruct (HP _ _ Hk) as (q & n & -> & Hin). exists q, n.
    split; [done|]. apply elem_of_app. by left.
Qed.

(** ** Further properties of a query *)

Lemma web_search_http_log_length st query num_results :
  length (http_log st) ≤ length (http_log (fst (web_search st query num_results)))
    ≤ S (length (http_log st)).
Proof.
  destruct (web_search_http_log st query num_results) as [-> | ->];
    [lia|rewrite length_app; cbn; lia].
Qed.

(** How far one run of the loop can grow the two logs and the history. *)
Lemma research_loop_growth remaining :
  ∀ prev st,
    let st' := fst (research_loop remaining prev st) in
    let calls := length (model_log st') - length (model_log st) in
    length (model_log st) ≤ length (model_log st') ∧
    calls ≤ remaining ∧
    length (http_log st) ≤ length (http_log st') ≤ length (http_log st) + calls ∧
    length (conversation_history st) ≤ length (conversation_history st')
      ≤ length (conversation_history st) + 2 * calls.
Proof.
  induction remaining as [|remaining IH]; intros prev st; cbn zeta; [cbn; lia|].
  destruct (claude (length (model_log st)) (conversation_history st))
    as [r|e] eqn:Hc.
  - destruct (decide (stop_reason r = "tool_use")) as [Hs|Hs];
      [destruct (first_web_search (resp_content r)) as [[tool_id input]|] eqn:Hf|].
    + rewrite (research_loop_tool _ _ _ _ _ _ Hc Hs Hf).
      specialize (IH (Some r)
                    (after_tool_call (log_model (conversation_history st) (Replied r) st)
                       tool_id input)).
      cbn zeta in IH.
      rewrite after_tool_call_history in IH.
      destruct (after_tool_call_frame
                  (log_model (conversation_history st) (Replied r) st) tool_id input)
        as (Hm & Hl & _).
      rewrite Hm, Hl in IH.
      pose proof (web_search_http_log_length
                    (log_model (conversation_history st) (Replied r) st)
                    (default EmptyString (input_query input))
                    (default 5%Z (input_num_results input))) as Hget.
      cbn in IH, Hget. rewrite !length_app in IH. cbn in IH. lia.
    + rewrite (research_loop_no_tool _ _ _ _ Hc Hf). cbn. rewrite length_app. cbn. lia.
    + rewrite (research_loop_final _ _ _ _ Hc Hs). cbn. rewrite length_app. cbn. lia.
  - rewrite (research_loop_failed _ _ _ _ Hc). cbn. rewrite length_app. cbn. lia.
Qed.

Lemma process_research_query_history_length st user_query :
  length (conversation_history (fst (process_research_query st user_query)))
    ≤ length (conversation_history st) + 12.
Proof.
  unfold process_research_query.
  pose proof (research_loop_growth max_iterations None
                (history_append (user_turn user_query) st)) as Hgrow.
  cbn zeta in Hgrow. unfold max_iterations in *.
  destruct (research_loop 5 None _) as [st1 [e|[r|]]]; cbn in Hgrow |- *;
    rewrite ?length_app in *; cbn in *; try lia.
  destruct (decide _); cbn; rewrite ?length_app; cbn; lia.
Qed.

(** X7.  A query only appends to the history, whatever its outcome: the
    history after it is the history before it, the user turn of the query,
    and at most eleven further turns (two per model call, and
    the answer). *)
Theorem process_research_query_appends st user_query :
  ∃ added,
    conversation_history (fst (process_research_query st user_query)) =
      conversation_history st ++ user_turn user_query :: added ∧
    length added ≤ 11.
Proof.
  pose proof (process_research_query_history_length st user_query) as Hlen.
  destruct (process_research_query_facts st user_query)
    as (new & ps & _ & _ & _ & _ & _ & Hend).
  cbn zeta in *.
  assert (∃ added,
            conversation_history (fst (process_research_query st user_query)) =
              conversation_history st ++ user_turn user_query :: added)
    as [added Hadded].
  { destruct Hend as [(e & _ & _ & ->)|(m & r & _ & _ & -> & _)].
    - exists ps. by rewrite <- app_assoc.
    - eexists (ps ++ _). by rewrite <- !app_assoc. }
  exists added. split; [done|].
  rewrite Hadded, length_app in Hlen. cbn in Hlen. lia.
Qed.

(** X8.  Every GET of a query is asked for by a model response: a query
    issues at most as many GETs as it makes model calls, hence at most
    five. *)
Theorem process_research_query_gets st user_query :
  let st' := fst (process_research_query st user_query) in
  length (http_log st) ≤ length (http_log st') ∧
  length (http_log st') ≤ length (http_log st) + length (new_calls st st') ∧
  length (http_log st') ≤ length (http_log st) + 5.
Proof.
  cbn zeta. unfold new_calls. rewrite length_drop.
  unfold process_research_query.
  pose proof (research_loop_growth max_iterations None
                (history_append (user_turn user_query) st)) as Hgrow.
  cbn zeta in Hgrow. unfold max_iterations in *.
  destruct (research_loop 5 None _) as [st1 [e|[r|]]]; cbn in Hgrow |- *; try lia.
  destruct (decide _); cbn; lia.
Qed.

Lemma process_research_query_last_call st user_query :
  ∃ new,
    model_log (fst (process_research_query st user_query)) = model_log st ++ new ∧
    last (model_log (fst (process_research_query st user_query))) = last new ∧
    new ≠ [].
Proof.
  destruct (process_research_query_facts st user_query)
    as (new & ps & Hlog & _ & _ & _ & _ & Hend).
  cbn zeta in *. exists new.
  assert (new ≠ []) as Hne.
  { destruct Hend as [(? & Hl & _)|(? & ? & Hl & _)]; by intros ->. }
  split; [done|]. split; [|done].
  rewrite Hlog, last_app. by destruct (last new) eqn:Hl; [|apply last_None in Hl].
Qed.

(** X9.  When a query ends on a reply of the model, the text returned is
    recorded in the history exactly when it is not empty: a non-empty
    answer is the last turn, as a plain assistant turn; after an empty
    answer the history still ends with a user turn. *)
Theorem answer_recorded_unless_empty st user_query m r :
  let st' := fst (process_research_query st user_query) in
  let out := snd (process_research_query st user_query) in
  last (model_log st') = Some (m, Replied r) →
  out = final_text_of (resp_content r) ∧
  (out ≠ EmptyString →
   last (conversation_history st') = Some (mkTurn assistant (Plain out))) ∧
  (out = EmptyString →
   turn_role <$> last (conversation_history st') = Some user).
Proof.
  cbn zeta. intros Hl.
  destruct (process_research_query_last_call st user_query) as (new' & Hlog' & Hlast & _).
  destruct (process_research_query_facts st user_query)
    as (new & ps & Hlog & _ & Hps & _ & _ & Hend).
  cbn zeta in *.
  rewrite Hlog in Hlog'. apply app_inv_head in Hlog' as <-.
  rewrite Hlast in Hl.
  destruct Hend as [(e & He & _)|(m' & r' & Hr & Hout & Hh & _)]; [congruence|].
  rewrite Hl in Hr. injection Hr as <- <-.
  split; [done|]. rewrite Hh. split; intros Hne.
  - destruct (decide _); [done|]. by rewrite last_snoc.
  - destruct (decide _); [|done]. rewrite app_nil_r, <- app_assoc.
    by apply tool_pairs_last_user.
Qed.


(** A search reads and writes the cache and the GET log only. *)
Lemma web_search_ext st1 st2 query num_results :
  search_results_cache st1 = search_results_cache st2 →
  http_log st1 = http_log st2 →
  snd (web_search st1 query num_results) = snd (web_search st2 query num_results) ∧
  search_results_cache (fst (web_search st1 query num_results))
    = search_results_cache (fst (web_search st2 query num_results)) ∧
  http_log (fst (web_search st1 query num_results))
    = http_log (fst (web_search st2 query num_results)).
Proof.
  intros Hc Hl. unfold web_search. rewrite Hc, Hl.
  destruct (search_results_cache st2 !! _); [done|].
  destruct (fetch_results _ _); cbn; by rewrite ?Hc, ?Hl.
Qed.

(** X11.  When the model first asks for one web search and then answers,
    the query makes exactly those two model calls, the second one on the
    history extended by the tool_use / tool_result pair; it issues the GETs
    of that one search only, returns the text of the second response and,
    if that text is not empty, leaves four new turns in the order query,
    tool_use, tool_result, answer. *)
Theorem one_search_then_answer_calls st user_query r1 tool_id input r2 :
  let h0 := conversation_history st ++ [user_turn user_query] in
  let searched :=
    web_search st (default EmptyString (input_query input))
      (default 5%Z (input_num_results input)) in
  let h1 :=
    h0 ++ [tool_use_turn tool_id "web_search" input;
           tool_result_turn tool_id (format_search_results (snd searched))] in
  claude (length (model_log st)) h0 = Replied r1 →
  stop_reason r1 = "tool_use" →
  first_web_search (resp_content r1) = Some (tool_id, input) →
  claude (S (length (model_log st))) h1 = Replied r2 →
  stop_reason r2 ≠ "tool_use" →
  let st' := fst (process_research_query st user_query) in
  let out := final_text_of (resp_content r2) in
  snd (process_research_query st user_query) = out ∧
  new_calls st st' = [(h0, Replied r1); (h1, Replied r2)] ∧
  http_log st' = http_log (fst searched) ∧
  search_results_cache st' = search_results_cache (fst searched) ∧
  conversation_history st' =
    h1 ++ (if decide (out = EmptyString) then [] else [mkTurn assistant (Plain out)]).
Proof.
  cbn zeta. intros Hc1 Hs1 Hf1 Hc2 Hs2.
  unfold new_calls, process_research_query, max_iterations.
  rewrite (research_loop_tool 4 None
             (history_append (user_turn user_query) st) r1 tool_id input Hc1 Hs1 Hf1).
  set (st0 := log_model _ _ _).
  destruct (web_search_ext st0 st (default EmptyString (input_query input))
              (default 5%Z (input_num_results input)) eq_refl eq_refl)
    as (Hres & Hcache & Hlog).
  destruct (after_tool_call_frame st0 tool_id input) as (Hm & Hl & Hca).
  pose proof (after_tool_call_history st0 tool_id input) as Hh.
  rewrite Hres in Hh. cbn in Hm, Hh.
  assert (claude (length (model_log (after_tool_call st0 tool_id input)))
            (conversation_history (after_tool_call st0 tool_id input)) = Replied r2)
    as Hc2'.
  { rewrite Hm, Hh, length_app. cbn. by rewrite Nat.add_1_r. }
  rewrite (research_loop_final 3 (Some r1) _ r2 Hc2' Hs2).
  destruct (decide (final_text_of (resp_content r2) = EmptyString)); cbn;
    rewrite Hm, Hh, Hl, Hca, Hlog, Hcache, <- app_assoc, drop_app_length,
      ?app_nil_r; done.
Qed.

(** ** Further properties of a session *)

(** X12.  In a session started from a fresh assistant, whatever searches,
    queries and resets it is made of, every model call ever issued received
    a history without dangling tool_use. *)
Theorem session_model_calls_no_dangling ops m o :
  (m, o) ∈ model_log (run_ops ops init) → no_dangling m = true.
Proof.
  assert (∀ ops st,
            no_dangling (conversation_history st) = true →
            (∀ m o, (m, o) ∈ model_log st → no_dangling m = true) →
            ∀ m o, (m, o) ∈ model_log (run_ops ops st) → no_dangling m = true)
    as Hgen.
  { clear. induction ops as [|op ops IH]; intros st Hh Hlog; [done|].
    cbn. apply IH.
    - change (no_dangling (conversation_history (run_ops [op] st)) = true).
      by apply run_ops_no_dangling.
    - destruct op as [query num_results|user_query|]; cbn.
      + by destruct (web_search_frame st query num_results) as [_ ->].
      + destruct (process_research_query_facts st user_query)
          as (new & ps & Hnew & _ & _ & Hmsgs & _ & _).
        cbn zeta in *. rewrite Hnew. intros m o [Hin|Hin]%elem_of_app.
        * by eapply Hlog.
        * apply list_elem_of_lookup in Hin as [i Hi].
          apply Hmsgs in Hi as (ps' & Hps' & ->).
          apply no_dangling_pairs; [|done]. by apply no_dangling_plain.
      + done. }
  apply Hgen; [done|]. by intros ?? ?%elem_of_nil.
Qed.

Lemma no_adjacent_assistant_snoc h t :
  no_adjacent_assistant h = true →
  (turn_role <$> last h = Some user ∨ turn_role t = user ∨ h = []) →
  no_adjacent_assistant (h ++ [t]) = true.
Proof.
  intros Hh Hlast. induction h as [|t1 rest IH]; [done|].
  cbn [no_adjacent_assistant app] in Hh |- *.
  apply andb_true_iff in Hh as [Hhead Hrest].
  destruct rest as [|t2 rest'].
  - cbn. rewrite andb_true_r. apply negb_true_iff, andb_false_iff.
    destruct Hlast as [Hl|[Hl|[=]]]; cbn in Hl.
    + left. injection Hl as Hl. rewrite Hl. done.
    + right. rewrite Hl. done.
  - apply andb_true_iff. split; [done|]. apply IH; [done|].
    destruct Hlast as [Hl|[Hl|[=]]]; [left|right; by left].
    by rewrite last_cons_cons in Hl.
Qed.

Lemma starts_with_user_app h l :
  starts_with_user h = true → (h = [] → starts_with_user l = true) →
  starts_with_user (h ++ l) = true.
Proof. destruct h; cbn; auto. Qed.

(** The shape of the history between two operations: it opens with a user
    turn and no assistant turn follows an assistant turn. *)
Lemma roles_snoc_user h s :
  starts_with_user h = true ∧ no_adjacent_assistant h = true →
  (starts_with_user (h ++ [mkTurn user s]) = true ∧
   no_adjacent_assistant (h ++ [mkTurn user s]) = true) ∧
  turn_role <$> last (h ++ [mkTurn user s]) = Some user.
Proof.
  intros [Hs Ha]. split; [split|].
  - by apply starts_with_user_app.
  - apply no_adjacent_assistant_snoc; [done|]. right. by left.
  - by rewrite last_snoc.
Qed.

Lemma roles_pairs h ps :
  tool_pairs ps →
  (starts_with_user h = true ∧ no_adjacent_assistant h = true) ∧
  turn_role <$> last h = Some user →
  (starts_with_user (h ++ ps) = true ∧ no_adjacent_assistant (h ++ ps) = true) ∧
  turn_role <$> last (h ++ ps) = Some user.
Proof.
  induction 1 as [|ps tool_id input res _ IH]; intros Hh.
  - by rewrite app_nil_r.
  - destruct (IH Hh) as [[Hs Ha] Hl].
    assert (h ++ ps ≠ []) as Hne by (intros Heq; by rewrite Heq in Hl).
    replace (h ++ ps ++ [tool_use_turn tool_id "web_search" input;
                         tool_result_turn tool_id res])
      with (((h ++ ps) ++ [tool_use_turn tool_id "web_search" input])
              ++ [tool_result_turn tool_id res])
      by (by rewrite <- !app_assoc).
    split; [split|].
    + apply starts_with_user_app; [|by intros ?%app_eq_nil].
      apply starts_with_user_app; [done|by intros ?].
    + apply no_adjacent_assistant_snoc; [|right; by left].
      apply no_adjacent_assistant_snoc; [done|by left].
    + by rewrite last_snoc.
Qed.

Lemma process_research_query_roles st user_query :
  starts_with_user (conversation_history st) = true ∧
  no_adjacent_assistant (conversation_history st) = true →
  starts_with_user (conversation_history (fst (process_research_query st user_query)))
    = true ∧
  no_adjacent_assistant
    (conversation_history (fst (process_research_query st user_query))) = true.
Proof.
  intros Hinv.
  destruct (process_research_query_facts st user_query)
    as (new & ps & _ & _ & Hps & _ & _ & Hend).
  cbn zeta in *.
  pose proof (roles_pairs _ ps Hps (roles_snoc_user _ (Plain user_query) Hinv))
    as [[Hs Ha] Hl].
  destruct Hend as [(e & _ & _ & ->)|(m & r & _ & _ & -> & _)]; [done|].
  destruct (decide _); [by rewrite app_nil_r|]. split.
  - apply starts_with_user_app; [done|]. intros Heq.
    apply app_eq_nil in Heq as [Heq _]. by apply app_eq_nil in Heq as [_ ?].
  - apply no_adjacent_assistant_snoc; [done|by left].
Qed.

(** X13.  In a session started from a fresh assistant, the history is
    empty or opens with a user turn, and an assistant turn never directly
    follows an assistant turn (two user turns in a row do occur). *)
Theorem session_history_roles ops :
  starts_with_user (conversation_history (run_ops ops init)) = true ∧
  no_adjacent_assistant (conversation_history (run_ops ops init)) = true.
Proof.
  assert (∀ ops st,
            starts_with_user (conversation_history st) = true ∧
            no_adjacent_assistant (conversation_history st) = true →
            starts_with_user (conversation_history (run_ops ops st)) = true ∧
            no_adjacent_assistant (conversation_history (run_ops ops st)) = true)
    as Hgen.
  { clear. induction ops as [|op ops IH]; intros st Hinv; [done|].
    cbn. apply IH. destruct op as [query num_results|user_query|]; cbn.
    - by destruct (web_search_frame st query num_results) as [-> _].
    - by apply process_research_query_roles.
    - done. }
  by apply Hgen.
Qed.

(** ** The registry and the handler *)

Lemma first_web_search_is_Some items :
  is_Some (first_web_search items) ↔
  ∃ tool_id input, ToolUse tool_id "web_search" input ∈ items.
Proof.
  induction items as [|b rest IH]; cbn.
  - split; [by intros [? ?]|by intros (? & ? & ?%elem_of_nil)].
  - assert ((∃ tool_id input, ToolUse tool_id "web_search" input ∈ rest) →
            ∃ tool_id input, ToolUse tool_id "web_search" input ∈ b :: rest) as Hmono.
    { intros (tool_id & input & Hin). exists tool_id, input. by right. }
    destruct b as [text|tool_id tool_name input|tool_use_id c|];
      try (rewrite IH; split; [done|];
           intros (tool_id' & input' & [[=]|Hin]%elem_of_cons); by eauto).
    destruct (String.eqb_spec tool_name "web_search") as [->|Hne].
    + split; [intros _; exists tool_id, input; by left|by eauto].
    + rewrite IH. split; [done|].
      intros (tool_id' & input' & [[=]|Hin]%elem_of_cons); [done|by eauto].
Qed.

(** X14.  The handler and the registry agree: [handle_tool_use] reports a
    tool call as handled exactly when the response holds a tool_use block
    whose name is the name of a tool [create_tool_specs] declares. *)
Theorem handle_tool_use_handles_declared_tools st r :
  snd (handle_tool_use st r) = true ↔
  ∃ tool_id tool_name input,
    ToolUse tool_id tool_name input ∈ resp_content r ∧
    tool_name ∈ (spec_name <$> create_tool_specs).
Proof.
  unfold handle_tool_use. rewrite handle_tool_use_items_eq.
  pose proof (first_web_search_is_Some (resp_content r)) as Hiff.
  destruct (first_web_search (resp_content r)) as [[tool_id input]|]; cbn [snd].
  - split; [intros _|done].
    destruct (proj1 Hiff) as (tool_id' & input' & Hin); [by eexists|].
    exists tool_id', "web_search", input'. split; [done|]. by left.
  - split; [done|]. intros (tool_id & tool_name & input & Hin & Hname).
    apply list_elem_of_singleton in Hname as ->.
    destruct (proj2 Hiff) as [? [=]]. by eauto.
Qed.


(** X16.  The no-results sentence is returned for the empty list only: the
    rendering of a non-empty list is another string. *)
Theorem format_search_results_sentinel_iff results :
  format_search_results results = "No search results found." ↔ results = [].
Proof.
  split; [|by intros ->].
  destruct results as [|result rest]; [done|].
  unfold format_search_results. rewrite format_loop_entries.
  intros Heq. exfalso.
  change (String (Ascii.ascii_of_nat 35)
            (("## Search Results:" +:+ nl +:+ nl) +:+
             foldr String.append EmptyString
               (imap (λ k result0, pretty (1 + k) +:+ ". " +:+ entry_body result0)
                  (result :: rest)))
          = String (Ascii.ascii_of_nat 78) "o search results found.") in Heq.
  by injection Heq.
Qed.

(** ** The page script *)

Lemma press_reset_assistant ss :
  ss_assistant (press_reset ss)
    = (λ a, fst (reset_conversation a)) <$> ss_assistant ss.
Proof. by destruct ss as [[ms|] [a|]]. Qed.

Lemma press_reset_messages ss :
  ss_messages (press_reset ss) = (λ _, []) <$> ss_messages ss.
Proof. by destruct ss as [[ms|] [a|]]. Qed.

(** X17.  While one of the two API keys is empty, a run of the script
    reaches neither provider and creates no assistant, whatever is typed
    or pressed: the assistant, if there is one, keeps its logs of model
    calls and GETs and its cache, and a session without assistant stays
    without. *)
Theorem script_run_without_keys ss w :
  anthropic_api_key w = EmptyString ∨ brave_api_key w = EmptyString →
  let ss' := script_run ss w in
  model_log <$> ss_assistant ss' = model_log <$> ss_assistant ss ∧
  http_log <$> ss_assistant ss' = http_log <$> ss_assistant ss ∧
  search_results_cache <$> ss_assistant ss' = search_results_cache <$> ss_assistant ss ∧
  (ss_assistant ss = None → ss_assistant ss' = None).
Proof.
  intros Hkeys. cbn zeta. unfold script_run.
  assert (bool_decide (anthropic_api_key w = EmptyString)
          || bool_decide (brave_api_key w = EmptyString) = true) as ->.
  { apply orb_true_iff. destruct Hkeys; [left|right]; by apply bool_decide_eq_true. }
  destruct (reset_button w); [|done].
  rewrite press_reset_assistant. by destruct (ss_assistant ss).
Qed.

Lemma alternates_app ms p r :
  alternates ms = true →
  alternates (ms ++ [mkMessage user p; mkMessage assistant r]) = true.
Proof.
  revert ms. fix IH 1. intros [|m1 [|m2 rest]] Hms; [done|done|].
  cbn in Hms |- *. apply andb_true_iff in Hms as [-> Hrest]. cbn. by apply IH.
Qed.

Lemma script_run_alternates ss w :
  alternates (default [] (ss_messages ss)) = true →
  alternates (default [] (ss_messages (script_run ss w))) = true.
Proof.
  intros Hms. unfold script_run.
  assert (alternates
            (default [] (ss_messages (if reset_button w then press_reset ss else ss)))
          = true) as Hms'.
  { destruct (reset_button w); [|done].
    rewrite press_reset_messages. by destruct (ss_messages ss). }
  destruct (_ || _); [done|].
  set (ms := match ss_messages _ with Some ms => ms | None => [] end) in *.
  assert (alternates ms = true) as Hms''.
  { subst ms. by destruct (ss_messages (if reset_button w then _ else _)). }
  destruct (chat_input w) as [prompt|]; [|done].
  destruct (bool_decide (prompt = EmptyString)); [done|].
  destruct (process_research_query _ prompt) as [a response]. cbn.
  rewrite <- app_assoc. by apply alternates_app.
Qed.

(** X18.  In a browser session, whatever is typed and pressed, the
    transcript shown is a sequence of pairs, a user message followed by an
    assistant message: every prompt gets exactly one answer entry, be it
    an answer of the model, an empty text or an error text. *)
Theorem transcript_alternates ws :
  alternates (default [] (ss_messages (script_runs ws fresh_session))) = true.
Proof.
  assert (∀ ws ss,
            alternates (default [] (ss_messages ss)) = true →
            alternates (default [] (ss_messages (script_runs ws ss))) = true) as Hgen.
  { clear. induction ws as [|w ws IH]; intros ss Hms; [done|].
    cbn. by apply IH, script_run_alternates. }
  by apply Hgen.
Qed.

Lemma history_prompts_app h1 h2 :
  history_prompts (h1 ++ h2) = history_prompts h1 ++ history_prompts h2.
Proof. apply omap_app. Qed.

Lemma history_prompts_pairs ps : tool_pairs ps → history_prompts ps = [].
Proof.
  induction 1 as [|ps tool_id input res _ IH]; [done|].
  by rewrite history_prompts_app, IH.
Qed.

Lemma process_research_query_prompts st user_query :
  history_prompts (conversation_history (fst (process_research_query st user_query)))
    = history_prompts (conversation_history st) ++ [user_query].
Proof.
  destruct (process_research_query_facts st user_query)
    as (new & ps & _ & _ & Hps & _ & _ & Hend).
  cbn zeta in *.
  destruct Hend as [(e & _ & _ & ->)|(m & r & _ & _ & -> & _)];
    rewrite !history_prompts_app, (history_prompts_pairs ps Hps), ?app_nil_r; [done|].
  by destruct (decide _); cbn; rewrite ?app_nil_r.
Qed.

(** The two keys of the session state come and go together, and hold the
    same prompts. *)
Lemma script_run_prompts ss w :
  match ss_messages ss, ss_assistant ss with
  | None, None => True
  | Some ms, Some a =>
      history_prompts (conversation_history a) = transcript_prompts ms
  | _, _ => False
  end →
  match ss_messages (script_run ss w), ss_assistant (script_run ss w) with
  | None, None => True
  | Some ms, Some a =>
      history_prompts (conversation_history a) = transcript_prompts ms
  | _, _ => False
  end.
Proof.
  intros Hinv. unfold script_run.
  set (ss1 := if reset_button w then press_reset ss else ss).
  assert (match ss_messages ss1, ss_assistant ss1 with
          | None, None => True
          | Some ms, Some a =>
              history_prompts (conversation_history a) = transcript_prompts ms
          | _, _ => False
          end) as Hinv1.
  { subst ss1. destruct (reset_button w); [|done].
    by destruct ss as [[ms|] [a|]]. }
  clearbody ss1. clear Hinv.
  destruct (_ || _); [done|].
  assert (history_prompts
            (conversation_history
               match ss_assistant ss1 with Some a => a | None => init end)
          = transcript_prompts
              match ss_messages ss1 with Some ms => ms | None => [] end) as Hp.
  { by destruct (ss_messages ss1), (ss_assistant ss1). }
  destruct (chat_input w) as [prompt|]; [|done].
  destruct (bool_decide (prompt = EmptyString)); [done|].
  pose proof (process_research_query_prompts
                match ss_assistant ss1 with Some a => a | None => init end prompt)
    as Hq.
  destruct (process_research_query _ prompt) as [a response]. cbn in Hq |- *.
  unfold transcript_prompts in *. rewrite !omap_app. cbn.
  by rewrite Hq, Hp, app_nil_r.
Qed.

(** X19.  In a browser session, the history the model is given and the
    transcript shown hold the same user prompts in the same order, whatever
    is typed and pressed: both are cleared together by the reset button,
    and a prompt whose query failed or was answered by an empty text is in
    both. *)
Theorem transcript_and_history_prompts ws :
  history_prompts
    (default [] (conversation_history <$> ss_assistant (script_runs ws fresh_session)))
  = transcript_prompts (default [] (ss_messages (script_runs ws fresh_session))).
Proof.
  assert (∀ ws ss,
            match ss_messages ss, ss_assistant ss with
            | None, None => True
            | Some ms, Some a =>
                history_prompts (conversation_history a) = transcript_prompts ms
            | _, _ => False
            end →
            match ss_messages (script_runs ws ss), ss_assistant (script_runs ws ss) with
            | None, None => True
            | Some ms, Some a =>
                history_prompts (conversation_history a) = transcript_prompts ms
            | _, _ => False
            end) as Hgen.
  { clear. induction ws as [|w ws IH]; intros ss Hinv; [done|].
    cbn. by apply IH, script_run_prompts. }
  specialize (Hgen ws fresh_session I).
  by destruct (ss_messages _), (ss_assistant _).
Qed.

(** X20.  A run in which the reset button is pressed and nothing is typed
    leaves an empty transcript and an empty history, and keeps the cache
    and the logs of the assistant; pressed before any assistant exists and
    without keys, it changes nothing. *)
Theorem reset_button_clears ss w :
  reset_button w = true →
  chat_input w = None →
  let ss' := script_run ss w in
  (∀ ms, ss_messages ss' = Some ms → ms = []) ∧
  (∀ a', ss_assistant ss' = Some a' → conversation_history a' = []) ∧
  (∀ a, ss_assistant ss = Some a →
     ∃ a', ss_assistant ss' = Some a' ∧
           search_results_cache a' = search_results_cache a ∧
           http_log a' = http_log a ∧ model_log a' = model_log a) ∧
  ((anthropic_api_key w = EmptyString ∨ brave_api_key w = EmptyString) →
   script_run fresh_session w = fresh_session).
Proof.
  intros Hreset Hchat. cbn zeta. unfold script_run. rewrite Hreset, Hchat.
  pose proof (press_reset_assistant ss) as Ha.
  pose proof (press_reset_messages ss) as Hm.
  split; [|split; [|split]].
  - destruct (_ || _); cbn; rewrite Hm; destruct (ss_messages ss); by intros ? [= <-].
  - destruct (_ || _); cbn; rewrite Ha; destruct (ss_assistant ss); cbn;
      by intros ? [= <-].
  - intros a Hsome. rewrite Hsome in Ha.
    destruct (_ || _); cbn; rewrite Ha; by eexists.
  - intros Hkeys.
    assert (bool_decide (anthropic_api_key w = EmptyString)
            || bool_decide (brave_api_key w = EmptyString) = true) as ->.
    { apply orb_true_iff. destruct Hkeys; [left|right]; by apply bool_decide_eq_true. }
    done.
Qed.

Lemma script_run_keeps ss w a q n cached :
  ss_assistant ss = Some a →
  search_results_cache a !! cache_key q n = Some cached →
  ∃ a', ss_assistant (script_run ss w) = Some a' ∧
        search_results_cache a' !! cache_key q n = Some cached ∧
        gets_for q n a' = gets_for q n a.
Proof.
  intros Ha Hk. unfold script_run.
  set (ss1 := if reset_button w then press_reset ss else ss).
  assert (∃ a1, ss_assistant ss1 = Some a1 ∧
                search_results_cache a1 !! cache_key q n = Some cached ∧
                gets_for q n a1 = gets_for q n a) as (a1 & Ha1 & Hk1 & Hg1).
  { subst ss1. destruct (reset_button w); [|by exists a].
    rewrite press_reset_assistant, Ha. by eexists. }
  clearbody ss1.
  destruct (_ || _); [by exists a1|]. rewrite Ha1.
  destruct (chat_input w) as [prompt|]; [|by exists a1].
  destruct (bool_decide (prompt = EmptyString)); [by exists a1|].
  destruct (process_research_query_keeps a1 prompt q n cached Hk1) as [Hk2 Hg2].
  destruct (process_research_query a1 prompt) as [a2 response]. cbn in *.
  exists a2. split; [done|]. split; [done|]. by rewrite Hg2.
Qed.

(** X21.  Once the session holds an assistant it is never replaced: what
    the assistant has cached stays cached through any further runs of the
    script (prompts, resets, changed or emptied keys), with no further GET
    for that pair. *)
Theorem script_runs_keep_cache ws ss a query num_results cached :
  ss_assistant ss = Some a →
  search_results_cache a !! cache_key query num_results = Some cached →
  ∃ a', ss_assistant (script_runs ws ss) = Some a' ∧
        search_results_cache a' !! cache_key query num_results = Some cached ∧
        gets_for query num_results a' = gets_for query num_results a.
Proof.
  revert ss a. induction ws as [|w ws IH]; intros ss a Ha Hk; [by exists a|].
  destruct (script_run_keeps ss w a query num_results cached Ha Hk)
    as (a1 & Ha1 & Hk1 & Hg1).
  destruct (IH (script_run ss w) a1 Ha1 Hk1) as (a2 & Ha2 & Hk2 & Hg2).
  exists a2. split; [done|]. split; [done|]. by rewrite Hg2.
Qed.

End Assistant.

(** ** Examples on the sample providers *)

(** A model that answers at once: one model call, no GET, the answer
    returned and appended once. *)
Example direct_answer :
  process_research_query sample_str brave_up claude_direct init
    "What is the capital of France?" =
  (mkAssistant
     [user_turn "What is the capital of France?"; mkTurn assistant (Plain "Paris.")]
     ∅ []
     [([user_turn "What is the capital of France?"],
       Replied (mkResponse "end_turn" [TextBlock "Paris."]))],
   "Paris.").
Proof. vm_compute. reflexivity. Qed.

(** One search followed by the answer: two model calls, one GET, four
    turns appended in the order query, tool_use, tool_result, answer. *)
Example one_search_then_answer :
  let st' := fst (process_research_query sample_str brave_up claude_search_once
                    init "X?") in
  length (model_log st') = 2 ∧
  http_log st' = [("X", 3%Z)] ∧
  (turn_role <$> conversation_history st') = [user; assistant; user; assistant] ∧
  (tool_use_ids <$> conversation_history st') = [[]; ["toolu_0"]; []; []] ∧
  snd (process_research_query sample_str brave_up claude_search_once init "X?")
    = "Here is what I found.".
Proof. vm_compute. repeat split; reflexivity. Qed.

Lemma process_research_query_call_bound_witness :
  ∃ m,
    new_calls init
      (fst (process_research_query sample_str brave_up claude_searching init "rocq"))
      !! 4
    = Some (m, Replied (mkResponse "tool_use"
                          [TextBlock "Searching."; search_request "toolu_4"])) ∧
    length (new_calls init
              (fst (process_research_query sample_str brave_up claude_searching
                      init "rocq"))) = 5 ∧
    snd (process_research_query sample_str brave_up claude_searching init "rocq")
      = "Searching.".
Proof.
  destruct (process_research_query_call_bound sample_str brave_up claude_searching
              init "rocq") as (_ & Hfifth & Hreach).
  destruct Hreach as (m & r & H4).
  - intros m o Hin.
    match type of Hin with
    | _ ∈ ?l => let l' := eval vm_compute in l in change l with l' in Hin
    end.
    rewrite !elem_of_cons, elem_of_nil in Hin.
    destruct Hin as [H|[H|[H|[H|[H|[]]]]]]; injection H as -> ->;
      (eexists; split; [reflexivity|split; [reflexivity|eexists; reflexivity]]).
  - assert (r = mkResponse "tool_use"
                  [TextBlock "Searching."; search_request "toolu_4"]) as ->.
    { match type of H4 with
      | ?l !! 4 = _ => let l' := eval vm_compute in l in change l with l' in H4
      end.
      cbn in H4. injection H4 as _ <-. reflexivity. }
    exists m. split; [exact H4|]. exact (Hfifth m _ H4).
Defined.

Lemma no_dangling_at_every_model_call_witness :
  no_dangling (conversation_history init) = true ∧
  no_dangling
    (conversation_history
       (fst (process_research_query sample_str brave_up claude_searching init "rocq")))
    = true.
Proof.
  split; [reflexivity|].
  apply (no_dangling_at_every_model_call sample_str brave_up claude_searching
           init "rocq").
  reflexivity.
Defined.

Lemma web_search_cached_once_witness :
  (search_results_cache init !! cache_key "rocq" 2 = None ∧
   fetch_results (brave_up 0 "rocq" 2%Z) 2 = Some sample_results ∧
   let st2 :=
     run_ops sample_str brave_up claude_searching
       [OpQuery "what is rocq"; OpReset; OpSearch "stdpp" 1]
       (fst (web_search brave_up init "rocq" 2)) in
   web_search brave_up st2 "rocq" 2 = (st2, sample_results) ∧
   gets_for "rocq" 2 (fst (web_search brave_up st2 "rocq" 2)) = 1) ∧
  (fetch_results (brave_down 0 "rocq" 2%Z) 2 = None ∧
   snd (web_search brave_down init "rocq" 2) = [] ∧
   gets_for "rocq" 2
     (fst (web_search brave_down (fst (web_search brave_down init "rocq" 2)) "rocq" 2))
   = 2) ∧
  fetch_results (HttpResponse 503 None) 2 = None.
Proof.
  split; [|split].
  - split; [reflexivity|]. split; [vm_compute; reflexivity|].
    cbv zeta.
    destruct (web_search_cached_once sample_str brave_up claude_searching)
      as (Hcached & _ & _).
    destruct (Hcached init "rocq" 2%Z sample_results
                [OpQuery "what is rocq"; OpReset; OpSearch "stdpp" 1])
      as (_ & _ & Hhit & Hgets).
    + reflexivity.
    + vm_compute. reflexivity.
    + split; [exact Hhit|exact Hgets].
  - split; [reflexivity|].
    destruct (web_search_cached_once sample_str brave_down claude_searching)
      as (_ & Hraised & _).
    destruct (Hraised init "rocq" 2%Z) as (Hres & _ & _ & Hgets).
    + reflexivity.
    + reflexivity.
    + split; [exact Hres|exact Hgets].
  - destruct (web_search_cached_once sample_str brave_down claude_searching)
      as (_ & _ & Hcause).
    apply Hcause. left. lia.
Defined.

Lemma format_search_results_entries_witness :
  sample_results ≠ [] ∧
  format_search_results sample_str sample_results =
    "### Search Results:" +:+ nl +:+ nl +:+
    ("1. **Rocq**" +:+ nl +:+
     "   URL: https://rocq-prover.org" +:+ nl +:+
     "   A proof assistant" +:+ nl +:+ nl) +:+
    ("2. **stdpp**" +:+ nl +:+
     "   URL: https://gitlab.mpi-sws.org/iris/stdpp" +:+ nl +:+
     "   A library" +:+ nl +:+ nl).
Proof.
  split; [discriminate|].
  destruct (format_search_results_entries sample_str) as [_ Hentries].
  destruct (Hentries sample_results) as (Hfmt & _ & _); [discriminate|].
  rewrite Hfmt. vm_compute. reflexivity.
Defined.

Lemma handle_tool_use_one_dispatch_witness :
  resp_content two_tools_response =
    [ToolUse "toolu_0" "calculator" (mkInput None None)]
    ++ ToolUse "toolu_1" "web_search" (mkInput (Some "rocq") (Some 2%Z)) :: [] ∧
  conversation_history (fst (handle_tool_use sample_str brave_up init two_tools_response))
  = conversation_history init ++
    [tool_use_turn "toolu_1" "web_search" (mkInput (Some "rocq") (Some 2%Z));
     tool_result_turn "toolu_1"
       (format_search_results sample_str
          (snd (web_search brave_up init "rocq" 2)))].
Proof.
  split; [reflexivity|].
  destruct (handle_tool_use_one_dispatch sample_str brave_up init two_tools_response)
    as (_ & _ & Hfirst).
  apply (Hfirst [ToolUse "toolu_0" "calculator" (mkInput None None)]
           "toolu_1" (mkInput (Some "rocq") (Some 2%Z)) []).
  - reflexivity.
  - intros id' name' input' Hin.
    apply list_elem_of_singleton in Hin. injection Hin as _ -> _. discriminate.
Defined.


Lemma web_search_transport_error_continues_witness :
  let brave_null :=
    λ (_ : nat) (_ : string) (_ : Z),
      HttpResponse 200 (Some (JObj [("web", JNull)])) in
  (search_failure (brave_null 0 "rocq" 2%Z) 2 ∧
   snd (web_search brave_null init "rocq" 2) = []) ∧
  (transport_error (brave_down 0 "rocq" 2%Z) ∧
   web_search brave_down init "rocq" 2 = (log_http "rocq" 2 init, [])) ∧
  conversation_history
    (fst (research_loop sample_str brave_null claude_searching 1 None
            (history_append (user_turn "what is rocq") init)))
  = [user_turn "what is rocq";
     tool_use_turn "toolu_0" "web_search" (mkInput (Some "rocq") (Some 2%Z));
     tool_result_turn "toolu_0" "No search results found."].
Proof.
  cbv zeta. split; [|split].
  - split; [right; reflexivity|].
    destruct (web_search_transport_error_continues sample_str
                (λ _ _ _, HttpResponse 200 (Some (JObj [("web", JNull)])))
                claude_searching) as [Hempty _].
    destruct (Hempty init "rocq" 2%Z) as (Hres & _ & _);
      [reflexivity|right; reflexivity|exact Hres].
  - split; [exact I|].
    destruct (web_search_transport_error_continues sample_str brave_down claude_searching)
      as [Hempty _].
    destruct (Hempty init "rocq" 2%Z) as (_ & _ & Hexact);
      [reflexivity|exact I|exact (Hexact I)].
  - destruct (web_search_transport_error_continues sample_str
                (λ _ _ _, HttpResponse 200 (Some (JObj [("web", JNull)])))
                claude_searching) as (_ & _ & Hround).
    destruct (Hround 0 None (history_append (user_turn "what is rocq") init)
                (mkResponse "tool_use"
                   [TextBlock "Searching."; search_request "toolu_0"])
                "toolu_0" (mkInput (Some "rocq") (Some 2%Z)))
      as (st2 & Hrun & Hhist & _).
    + reflexivity.
    + reflexivity.
    + reflexivity.
    + reflexivity.
    + right. reflexivity.
    + rewrite Hrun. exact Hhist.
Defined.

Lemma model_failure_returns_error_string_witness :
  let claude_timeout :=
    λ (_ : nat) (_ : list turn), Failed (mkExn RequestException "timed out") in
  let claude_broken :=
    λ (_ : nat) (_ : list turn), Failed (mkExn OtherException "bad response") in
  new_calls init
    (fst (process_research_query sample_str brave_up claude_overloaded init "rocq"))
    !! 0 = Some ([user_turn "rocq"], Failed (mkExn APIError "overloaded")) ∧
  snd (process_research_query sample_str brave_up claude_overloaded init "rocq")
    = "Anthropic API Error: overloaded" ∧
  snd (process_research_query sample_str brave_up claude_timeout init "rocq")
    = "Network Error: timed out" ∧
  snd (process_research_query sample_str brave_up claude_broken init "rocq")
    = "Unexpected Error: bad response".
Proof.
  cbv zeta. split; [vm_compute; reflexivity|]. split; [|split].
  - destruct (model_failure_returns_error_string sample_str brave_up claude_overloaded
                init "rocq" 0 [user_turn "rocq"] (mkExn APIError "overloaded"))
      as (_ & Hout & _).
    + vm_compute. reflexivity.
    + exact Hout.
  - destruct (model_failure_returns_error_string sample_str brave_up
                (λ _ _, Failed (mkExn RequestException "timed out"))
                init "rocq" 0 [user_turn "rocq"] (mkExn RequestException "timed out"))
      as (_ & Hout & _).
    + vm_compute. reflexivity.
    + exact Hout.
  - destruct (model_failure_returns_error_string sample_str brave_up
                (λ _ _, Failed (mkExn OtherException "bad response"))
                init "rocq" 0 [user_turn "rocq"] (mkExn OtherException "bad response"))
      as (_ & Hout & _).
    + vm_compute. reflexivity.
    + exact Hout.
Defined.

Lemma reset_conversation_keeps_cache_witness :
  conversation_history init = [] ∧ fst (reset_conversation init) = init.
Proof.
  split; [reflexivity|].
  destruct (reset_conversation_keeps_cache init) as (_ & _ & _ & _ & Hidle).
  apply Hidle. reflexivity.
Defined.

Lemma failed_query_leaves_user_turn_witness :
  (∃ m,
     last (model_log
             (fst (process_research_query sample_str brave_up claude_then_down
                     init "rocq")))
       = Some (m, Failed (mkExn OtherException "connection reset"))) ∧
  turn_role <$>
    last (conversation_history
            (fst (process_research_query sample_str brave_up claude_then_down
                    init "rocq")))
    = Some user.
Proof.
  split; [eexists; vm_compute; reflexivity|].
  eapply (failed_query_leaves_user_turn sample_str brave_up claude_then_down
            init "rocq").
  vm_compute. reflexivity.
Defined.

(** C3 as stated fails: a search that raises is not cached, so the second
    call with the same pair issues a second GET, and here returns another
    list than the first. *)
Lemma web_search_failure_is_retried :
  let '(st1, first) := web_search brave_flaky init "rocq" 2 in
  let '(st2, second) := web_search brave_flaky st1 "rocq" 2 in
  gets_for "rocq" 2 st2 = 2 ∧ first = [] ∧ second = sample_results.
Proof. vm_compute. repeat split; reflexivity. Qed.

(** C5 as stated fails: of two tool_use blocks, the first named calculator
    and the second web_search, the second is the one acted on. *)
Lemma handle_tool_use_acts_on_second_block :
  resp_content two_tools_response =
    [ToolUse "toolu_0" "calculator" (mkInput None None);
     ToolUse "toolu_1" "web_search" (mkInput (Some "rocq") (Some 2%Z))] ∧
  handle_tool_use sample_str brave_down init two_tools_response =
    (mkAssistant
       [tool_use_turn "toolu_1" "web_search" (mkInput (Some "rocq") (Some 2%Z));
        tool_result_turn "toolu_1" "No search results found."]
       ∅ [("rocq", 2%Z)] [],
     true).
Proof. split; vm_compute; reflexivity. Qed.


(** C7 as stated fails: a response with the non-2xx status 300 and a body
    of hits does not raise in [raise_for_status], and the hits are
    returned. *)
Lemma web_search_status_300_returns_hits :
  brave_multiple_choices 0 "rocq" 2%Z = HttpResponse 300 (Some sample_payload) ∧
  snd (web_search brave_multiple_choices init "rocq" 2) = sample_results.
Proof. split; vm_compute; reflexivity. Qed.

(** ** Examples of the further properties *)

Lemma fetch_results_well_shaped_witness :
  raise_for_status 200 = false ∧
  ∃ processed,
    fetch_results (HttpResponse 200 (Some sample_payload)) 1 = Some processed ∧
    length processed = 1.
Proof.
  split; [reflexivity|].
  destruct (fetch_results_well_shaped 200
              [("web", JObj [("results",
                  JArr [sample_hit "Rocq" "https://rocq-prover.org" "A proof assistant";
                        sample_hit "stdpp" "https://gitlab.mpi-sws.org/iris/stdpp"
                          "A library"])])]
              [("results",
                  JArr [sample_hit "Rocq" "https://rocq-prover.org" "A proof assistant";
                        sample_hit "stdpp" "https://gitlab.mpi-sws.org/iris/stdpp"
                          "A library"])]
              [sample_hit "Rocq" "https://rocq-prover.org" "A proof assistant";
               sample_hit "stdpp" "https://gitlab.mpi-sws.org/iris/stdpp" "A library"]
              1%Z) as (processed & Hf & Hlen & _).
  - reflexivity.
  - reflexivity.
  - reflexivity.
  - intros item Hin. apply list_elem_of_singleton in Hin. subst item. eexists. reflexivity.
  - exists processed. split; [exact Hf|exact Hlen].
Defined.

Lemma fetch_results_nonempty_witness :
  fetch_results (HttpResponse 200 (Some sample_payload)) 2 = Some sample_results ∧
  ∃ status_code kvs,
    HttpResponse 200 (Some sample_payload) = HttpResponse status_code (Some (JObj kvs)).
Proof.
  split; [vm_compute; reflexivity|].
  destruct (fetch_results_nonempty (HttpResponse 200 (Some sample_payload)) 2
              (mkResult (JStr "Rocq") (JStr "https://rocq-prover.org")
                 (JStr "A proof assistant"))
              [mkResult (JStr "stdpp") (JStr "https://gitlab.mpi-sws.org/iris/stdpp")
                 (JStr "A library")])
    as (status_code & kvs & _ & _ & Heq & _).
  - vm_compute. reflexivity.
  - exists status_code, kvs. exact Heq.
Defined.

Lemma web_search_at_most_count_witness :
  (0 ≤ 1)%Z ∧
  length (snd (web_search brave_up
                 (run_ops sample_str brave_up claude_searching
                    [OpSearch "rocq" 1; OpQuery "what is rocq"] init)
                 "rocq" 1)) ≤ Z.to_nat 1.
Proof.
  split; [lia|].
  apply (web_search_at_most_count sample_str brave_up claude_searching
           [OpSearch "rocq" 1; OpQuery "what is rocq"] "rocq" 1).
  lia.
Defined.

Lemma web_search_no_results_cached_witness :
  let brave_empty := λ (_ : nat) (_ : string) (_ : Z), HttpResponse 200 (Some (JObj [])) in
  search_results_cache init !! cache_key "rocq" 2 = None ∧
  search_results_cache (fst (web_search brave_empty init "rocq" 2))
    !! cache_key "rocq" 2 = Some [].
Proof.
  cbv zeta. split; [reflexivity|].
  destruct (web_search_no_results_cached
              (λ _ _ _, HttpResponse 200 (Some (JObj []))) init "rocq" 2 200 [])
    as (_ & _ & Hk & _).
  - reflexivity.
  - reflexivity.
  - reflexivity.
  - left. reflexivity.
  - exact Hk.
Defined.

Lemma web_search_other_pair_witness :
  ("rocq", 2%Z) ≠ ("rocq", 3%Z) ∧
  search_results_cache (fst (web_search brave_up init "rocq" 2)) !! cache_key "rocq" 3
  = search_results_cache init !! cache_key "rocq" 3.
Proof.
  split; [discriminate|].
  apply (web_search_other_pair brave_up init "rocq" 2 "rocq" 3). discriminate.
Defined.

Lemma cached_only_after_get_witness :
  ∃ query num_results,
    cache_key "rocq" 2 = cache_key query num_results ∧
    (query, num_results)
      ∈ http_log (run_ops sample_str brave_up claude_direct [OpSearch "rocq" 2] init).
Proof.
  apply (cached_only_after_get sample_str brave_up claude_direct
           [OpSearch "rocq" 2] (cache_key "rocq" 2) sample_results).
  vm_compute. reflexivity.
Defined.

Lemma answer_recorded_unless_empty_witness :
  last (conversation_history
          (fst (process_research_query sample_str brave_up claude_direct init "capital?")))
  = Some (mkTurn assistant
            (Plain (snd (process_research_query sample_str brave_up claude_direct
                           init "capital?")))).
Proof.
  destruct (answer_recorded_unless_empty sample_str brave_up claude_direct init
              "capital?" [user_turn "capital?"]
              (mkResponse "end_turn" [TextBlock "Paris."]))
    as (_ & Hrec & _).
  - vm_compute. reflexivity.
  - apply Hrec. vm_compute. discriminate.
Defined.


Lemma one_search_then_answer_calls_witness :
  snd (process_research_query sample_str brave_up claude_search_once init "X?")
    = "Here is what I found." ∧
  length (new_calls init
            (fst (process_research_query sample_str brave_up claude_search_once
                    init "X?"))) = 2.
Proof.
  destruct (one_search_then_answer_calls sample_str brave_up claude_search_once init "X?"
              (mkResponse "tool_use"
                 [ToolUse "toolu_0" "web_search" (mkInput (Some "X") (Some 3%Z))])
              "toolu_0" (mkInput (Some "X") (Some 3%Z))
              (mkResponse "end_turn" [TextBlock "Here is what I found."]))
    as (Hout & Hcalls & _).
  - reflexivity.
  - reflexivity.
  - reflexivity.
  - reflexivity.
  - discriminate.
  - split; [exact Hout|]. rewrite Hcalls. reflexivity.
Defined.

Lemma session_model_calls_no_dangling_witness :
  let searched :=
    [user_turn "X?";
     tool_use_turn "toolu_0" "web_search" (mkInput (Some "X") (Some 3%Z));
     tool_result_turn "toolu_0"
       (format_search_results sample_str (snd (web_search brave_up init "X" 3)))] in
  (searched, Replied (mkResponse "end_turn" [TextBlock "Here is what I found."]))
    ∈ model_log (run_ops sample_str brave_up claude_search_once [OpQuery "X?"] init) ∧
  (tool_use_ids <$> searched) = [[]; ["toolu_0"]; []] ∧
  no_dangling searched = true.
Proof.
  cbv zeta.
  assert (([user_turn "X?";
            tool_use_turn "toolu_0" "web_search" (mkInput (Some "X") (Some 3%Z));
            tool_result_turn "toolu_0"
              (format_search_results sample_str (snd (web_search brave_up init "X" 3)))],
           Replied (mkResponse "end_turn" [TextBlock "Here is what I found."]))
          ∈ model_log (run_ops sample_str brave_up claude_search_once
                         [OpQuery "X?"] init)) as Hin.
  { apply list_elem_of_lookup. exists 1. vm_compute. reflexivity. }
  split; [exact Hin|]. split; [reflexivity|].
  exact (session_model_calls_no_dangling sample_str brave_up claude_search_once
           [OpQuery "X?"] _ _ Hin).
Defined.

Lemma handle_tool_use_handles_declared_tools_witness :
  snd (handle_tool_use sample_str brave_up init calculator_response) = false.
Proof.
  destruct (handle_tool_use_handles_declared_tools sample_str brave_up init
              calculator_response) as [Hto _].
  destruct (snd (handle_tool_use sample_str brave_up init calculator_response))
    eqn:Hres; [|reflexivity].
  destruct (Hto eq_refl) as (tool_id & tool_name & input & Hin & Hname).
  exfalso.
  apply list_elem_of_singleton in Hname. subst tool_name.
  apply elem_of_cons in Hin as [Heq|Hin]; [discriminate|].
  apply list_elem_of_singleton in Hin. discriminate.
Defined.


Lemma format_search_results_sentinel_iff_witness :
  format_search_results sample_str sample_results ≠ "No search results found.".
Proof.
  intros Heq.
  apply (format_search_results_sentinel_iff sample_str sample_results) in Heq.
  discriminate.
Defined.

Lemma script_run_without_keys_witness :
  ss_assistant
    (script_run sample_str brave_up claude_direct fresh_session
       (mkWidgets "sk-ant" EmptyString true (Some "what is rocq")))
  = None.
Proof.
  apply (script_run_without_keys sample_str brave_up claude_direct fresh_session
           (mkWidgets "sk-ant" EmptyString true (Some "what is rocq"))).
  - right. reflexivity.
  - reflexivity.
Defined.

Lemma reset_button_clears_witness :
  let ss :=
    script_run sample_str brave_up claude_direct fresh_session
      (mkWidgets "sk-ant" "BSA" false (Some "capital?")) in
  ss_messages ss =
    Some [mkMessage user "capital?"; mkMessage assistant "Paris."] ∧
  ss_messages
    (script_run sample_str brave_up claude_direct ss (mkWidgets "sk-ant" "BSA" true None))
  = Some [].
Proof.
  cbv zeta. split; [vm_compute; reflexivity|].
  destruct (reset_button_clears sample_str brave_up claude_direct
              (script_run sample_str brave_up claude_direct fresh_session
                 (mkWidgets "sk-ant" "BSA" false (Some "capital?")))
              (mkWidgets "sk-ant" "BSA" true None)) as (Hms & _).
  - reflexivity.
  - reflexivity.
  - destruct (ss_messages _) as [ms|] eqn:Hss.
    + rewrite (Hms ms eq_refl). reflexivity.
    + vm_compute in Hss. discriminate.
Defined.

Lemma script_runs_keep_cache_witness :
  let a := fst (web_search brave_up init "rocq" 2) in
  search_results_cache a !! cache_key "rocq" 2 = Some sample_results ∧
  ∃ a',
    ss_assistant
      (script_runs sample_str brave_up claude_searching
         [mkWidgets "sk-ant" "BSA" false (Some "what is rocq");
          mkWidgets EmptyString EmptyString true None]
         (mkSession (Some []) (Some a))) = Some a' ∧
    search_results_cache a' !! cache_key "rocq" 2 = Some sample_results ∧
    gets_for "rocq" 2 a' = gets_for "rocq" 2 a.
Proof.
  cbv zeta. split; [vm_compute; reflexivity|].
  apply (script_runs_keep_cache sample_str brave_up claude_searching).
  - reflexivity.
  - vm_compute. reflexivity.
Defined.

